(** * CodeState: the standalone PR reporter and the contributor workload table

    A shallow embedding of [tools/codestate_pr_report.py] (changed-file
    listing, comment-line classifier, function counter, complexity score,
    per-file and per-extension aggregation) and of the contributor workload
    computation of [codestate/cli.py], followed by the properties proved
    about them.

    Conventions of the embedding.
    - A Python [str] is a [string]: a sequence of characters with code
      points below 256.  [str.strip], [str.lower], [str.splitlines] and the
      regular-expression classes are given on exactly those code points.
    - A Python [int] is a [Z]; a Python [float] is a primitive binary64
      [float], with [float(n)] the correctly rounded conversion.
    - A [dict] whose insertion order is observable is an association list
      in insertion order; the author-statistics dictionaries, only ever
      looked up and updated by key, are [gmap string pyval].
    - The file system and the [git] subprocess are an explicit [world]. *)

From Stdlib Require Import ZArith List String Ascii Bool Lia Floats.
From Stdlib Require Import DecimalString.
From Stdlib Require Import Sorted Permutation.
From stdpp Require Import gmap strings.
Import ListNotations.

Set Warnings "-inexact-float".

Local Open Scope string_scope.
Local Open Scope Z_scope.

(** ** Python values *)

Inductive pyval : Type :=
| PNone
| PInt (n : Z)
| PFloat (x : float)
| PStr (s : string).

(** A dictionary literal, in insertion order. *)
Definition pydict : Type := list (string * pyval).

Fixpoint dict_get (k : string) (d : pydict) : option pyval :=
  match d with
  | [] => None
  | (k', v) :: d' => if String.eqb k k' then Some v else dict_get k d'
  end.

Definition dict_keys (d : pydict) : list string := map fst d.

(** ** Python string primitives *)

Module Py.

Definition code (c : ascii) : N := N_of_ascii c.

Definition in_range (lo hi : N) (c : ascii) : bool :=
  (N.leb lo (code c) && N.leb (code c) hi)%bool.

(** [str.isspace] on one character: TAB..CR, FS..US, space, NEL, NBSP. *)
Definition is_space (c : ascii) : bool :=
  (in_range 9 13 c || in_range 28 32 c
   || N.eqb (code c) 133 || N.eqb (code c) 160)%bool.

(** Line boundaries of [str.splitlines]: LF, VT, FF, CR, FS, GS, RS, NEL. *)
Definition is_linebreak (c : ascii) : bool :=
  (in_range 10 13 c || in_range 28 30 c || N.eqb (code c) 133)%bool.

(** [str.lower] on one character: A-Z and the capital letters of the
    upper half (all of 0xC0..0xDE but the multiplication sign). *)
Definition lower_char (c : ascii) : ascii :=
  if (in_range 65 90 c
      || (in_range 192 222 c && negb (N.eqb (code c) 215)))%bool
  then ascii_of_N (code c + 32) else c.

Fixpoint lower (s : string) : string :=
  match s with
  | EmptyString => EmptyString
  | String c t => String (lower_char c) (lower t)
  end.

Fixpoint lstrip (s : string) : string :=
  match s with
  | EmptyString => EmptyString
  | String c t => if is_space c then lstrip t else s
  end.

Fixpoint rstrip (s : string) : string :=
  match s with
  | EmptyString => EmptyString
  | String c t =>
      match rstrip t with
      | EmptyString => if is_space c then EmptyString else String c EmptyString
      | t' => String c t'
      end
  end.

Definition strip (s : string) : string := rstrip (lstrip s).

Fixpoint startswith (s p : string) : bool :=
  match p with
  | EmptyString => true
  | String a p' =>
      match s with
      | EmptyString => false
      | String b s' => (Ascii.eqb a b && startswith s' p')%bool
      end
  end.

Fixpoint endswith (s p : string) : bool :=
  if String.eqb s p then true
  else match s with
       | EmptyString => false
       | String _ t => endswith t p
       end.

(** [tok in s]. *)
Fixpoint contains (tok s : string) : bool :=
  if startswith s tok then true
  else match s with
       | EmptyString => false
       | String _ t => contains tok t
       end.

Definition string_rev (s : string) : string :=
  string_of_list_ascii (rev (list_ascii_of_string s)).

(** [splitlines]: [cur] is the current line, reversed; [after_cr] tells
    that the previous character was a CR, whose LF is then swallowed. *)
Fixpoint splitlines_from (cur : string) (after_cr : bool) (s : string)
  : list string :=
  match s with
  | EmptyString =>
      match cur with
      | EmptyString => []
      | _ => [string_rev cur]
      end
  | String c t =>
      if (after_cr && N.eqb (code c) 10)%bool then splitlines_from cur false t
      else if is_linebreak c
           then string_rev cur :: splitlines_from EmptyString (N.eqb (code c) 13) t
           else splitlines_from (String c cur) false t
  end.

Definition splitlines (s : string) : list string :=
  splitlines_from EmptyString false s.

(** [sep.join(parts)]. *)
Definition join (sep : string) (parts : list string) : string :=
  String.concat sep parts.

(** The binary64 nearest to the integer [n] (ties to even). *)
Definition float_round (n : Z) : float :=
  SF2Prim (SpecFloat.binary_normalize prec emax n 0 false).

(** [float(n)] for an [int]; [None] stands for the [OverflowError] of an
    integer too large for a binary64. *)
Definition float_of_int (n : Z) : option float :=
  match SpecFloat.binary_normalize prec emax n 0 false with
  | S754_infinity _ => None
  | _ => Some (float_round n)
  end.

(** Correct rounding of [num / den] ([den > 0]) to an integer, ties to
    even. *)
Definition round_half_even (num den : Z) : Z :=
  let q := num / den in
  let r := num mod den in
  match 2 * r ?= den with
  | Lt => q
  | Gt => q + 1
  | Eq => if Z.even q then q else q + 1
  end.

(** The magnitude of a finite float [m * 2^e] in tenths, correctly
    rounded: what the format [.1f] prints, without its decimal point. *)
Definition tenths (m : positive) (e : Z) : Z :=
  if 0 <=? e then Z.pos m * 10 * 2 ^ e
  else round_half_even (Z.pos m * 10) (2 ^ (- e)).

Definition decimal (n : Z) : string :=
  DecimalString.NilZero.string_of_uint (N.to_uint (Z.to_N n)).

Definition sign_prefix (neg : bool) : string := if neg then "-" else EmptyString.

(** The format [.1f] of an f-string. *)
Definition format_1f (x : float) : string :=
  match Prim2SF x with
  | S754_zero s => sign_prefix s ++ "0.0"
  | S754_infinity s => sign_prefix s ++ "inf"
  | S754_nan => "nan"
  | S754_finite s m e =>
      let t := tenths m e in
      sign_prefix s ++ decimal (t / 10) ++ "." ++ decimal (t mod 10)
  end.

End Py.

(** The newline and the two quote characters used in string literals. *)
Definition nl : string := String (ascii_of_N 10) EmptyString.
Definition dq : string := String (ascii_of_N 34) EmptyString.
Definition sq : string := String (ascii_of_N 39) EmptyString.
Definition triple_dq : string := dq ++ dq ++ dq.
Definition triple_sq : string := sq ++ sq ++ sq.

(** ** Regular expressions ([re], case-insensitive, backtracking)

    Only the constructs of [FUNC_PATTERNS] and of [shlex] are modelled:
    character classes (a literal is a one-character class), the word
    boundary, sequence, ordered alternative and the greedy repetition of a
    character class.  A match is tried with a continuation, so that a
    greedy repetition gives characters back exactly as [re] does. *)

Module Re.

(** [\w] on a [str]: alphanumeric (letters, digits, numeric characters of
    the upper half) or underscore. *)
Definition is_word (c : ascii) : bool :=
  (Py.in_range 48 57 c || Py.in_range 65 90 c || Py.in_range 97 122 c
   || N.eqb (Py.code c) 95
   || N.eqb (Py.code c) 170 || Py.in_range 178 179 c
   || N.eqb (Py.code c) 181 || Py.in_range 185 186 c
   || Py.in_range 188 190 c
   || Py.in_range 192 214 c || Py.in_range 216 246 c
   || Py.in_range 248 255 c)%bool.

(** [\w] under [re.ASCII]. *)
Definition is_word_ascii (c : ascii) : bool :=
  (Py.in_range 48 57 c || Py.in_range 65 90 c || Py.in_range 97 122 c
   || N.eqb (Py.code c) 95)%bool.

Inductive regex : Type :=
| Class (p : ascii -> bool)
| Boundary
| Seq (r1 r2 : regex)
| Alt (r1 r2 : regex)
| Star (p : ascii -> bool).

Definition Plus (p : ascii -> bool) : regex := Seq (Class p) (Star p).

(** A literal character under [re.I]. *)
Definition ichar (c : ascii) : regex :=
  Class (fun x => Ascii.eqb (Py.lower_char x) (Py.lower_char c)).

Fixpoint istring (s : string) : regex :=
  match s with
  | EmptyString => Star (fun _ => false)
  | String c EmptyString => ichar c
  | String c t => Seq (ichar c) (istring t)
  end.

Definition word_opt (c : option ascii) : bool :=
  match c with Some x => is_word x | None => false end.

Definition head (s : string) : option ascii :=
  match s with String c _ => Some c | EmptyString => None end.

(** The continuation receives the last character consumed so far (for
    [\b]) and the rest of the subject; it returns the rest after the
    whole match. *)
Definition cont : Type := option ascii -> string -> option string.

Fixpoint star_match (p : ascii -> bool) (k : cont)
         (prev : option ascii) (s : string) : option string :=
  match s with
  | String c t =>
      if p c
      then match star_match p k (Some c) t with
           | Some r => Some r
           | None => k prev s
           end
      else k prev s
  | EmptyString => k prev s
  end.

Fixpoint rmatch (r : regex) (k : cont)
         (prev : option ascii) (s : string) : option string :=
  match r with
  | Class p =>
      match s with
      | String c t => if p c then k (Some c) t else None
      | EmptyString => None
      end
  | Boundary =>
      if xorb (word_opt prev) (word_opt (head s)) then k prev s else None
  | Seq r1 r2 => rmatch r1 (rmatch r2 k) prev s
  | Alt r1 r2 =>
      match rmatch r1 k prev s with
      | Some x => Some x
      | None => rmatch r2 k prev s
      end
  | Star p => star_match p k prev s
  end.

(** A match starting exactly here; the result is what follows it. *)
Definition match_here (r : regex) (prev : option ascii) (s : string)
  : option string :=
  rmatch r (fun _ rest => Some rest) prev s.

(** [len(pat.findall(text))]: leftmost non-overlapping matches.  After a
    match that consumed [n] characters the scan resumes behind it: the
    next [n - 1] positions are skipped ([skip]); an empty match moves on
    by one character. *)
Fixpoint count_from (r : regex) (skip : nat)
         (prev : option ascii) (s : string) : nat :=
  match skip with
  | S n =>
      match s with
      | String c t => count_from r n (Some c) t
      | EmptyString => O
      end
  | O =>
      match match_here r prev s with
      | Some rest =>
          match s with
          | String c t =>
              S (count_from r (Nat.pred (String.length s - String.length rest))
                            (Some c) t)
          | EmptyString => 1%nat
          end
      | None =>
          match s with
          | String c t => count_from r O (Some c) t
          | EmptyString => O
          end
      end
  end.

Definition findall_len (r : regex) (text : string) : nat :=
  count_from r O None text.

(** [pat.search(text) is not None]. *)
Fixpoint search_from (r : regex) (prev : option ascii) (s : string) : bool :=
  match match_here r prev s with
  | Some _ => true
  | None =>
      match s with
      | String c t => search_from r (Some c) t
      | EmptyString => false
      end
  end.

Definition search (r : regex) (text : string) : bool :=
  search_from r None text.

End Re.

(** ** [shlex.quote] *)

Module Shlex.

(** [_find_unsafe]: the pattern [[^\w@%+=:,./-]] under [re.ASCII]. *)
Definition unsafe_char (c : ascii) : bool :=
  negb (Re.is_word_ascii c
        || existsb (Ascii.eqb c)
             (list_ascii_of_string "@%+=:,./-"))%bool.

Definition _find_unsafe (s : string) : bool :=
  Re.search (Re.Class unsafe_char) s.

(** [s.replace]: every single quote becomes a single quote, a single
    quote between double quotes, and a single quote. *)
Fixpoint escape_quotes (s : string) : string :=
  match s with
  | EmptyString => EmptyString
  | String c t =>
      if Ascii.eqb c (ascii_of_N 39)
      then sq ++ dq ++ sq ++ dq ++ sq ++ escape_quotes t
      else String c (escape_quotes t)
  end.

Definition quote (s : string) : string :=
  match s with
  | EmptyString => sq ++ sq
  | _ => if _find_unsafe s then sq ++ escape_quotes s ++ sq else s
  end.

End Shlex.

(** ** [pathlib.Path], POSIX flavour *)

Module PathLib.

Record path : Type := { root : string; parts : list string }.

Definition slash : ascii := ascii_of_N 47.
Definition dot : ascii := ascii_of_N 46.

(** [rel.split('/')]: a character that is not a slash goes in front of
    the first component of what follows. *)
Fixpoint split (s : string) : list string :=
  match s with
  | EmptyString => [EmptyString]
  | String c t =>
      if Ascii.eqb c slash then EmptyString :: split t
      else match split t with
           | h :: r => String c h :: r
           | [] => [String c EmptyString]
           end
  end.

(** [posixpath.splitroot]: the root is one slash, or two slashes when the
    path starts with exactly two. *)
Definition splitroot (s : string) : string * string :=
  match s with
  | String c1 t1 =>
      if Ascii.eqb c1 slash then
        match t1 with
        | String c2 t2 =>
            if Ascii.eqb c2 slash then
              match t2 with
              | String c3 _ =>
                  if Ascii.eqb c3 slash then ("/", t1) else ("//", t2)
              | EmptyString => ("//", t2)
              end
            else ("/", t1)
        | EmptyString => ("/", t1)
        end
      else (EmptyString, s)
  | EmptyString => (EmptyString, s)
  end.

Definition keep_part (x : string) : bool :=
  negb (String.eqb x EmptyString || String.eqb x ".")%bool.

(** [Path(f)]. *)
Definition Path (f : string) : path :=
  let '(r, rel) := splitroot f in
  {| root := r; parts := List.filter keep_part (split rel) |}.

(** [str(p)]. *)
Definition str (p : path) : string :=
  match root p, parts p with
  | EmptyString, [] => "."
  | r, ps => r ++ Py.join "/" ps
  end.

(** [p.name]. *)
Definition name (p : path) : string := List.last (parts p) EmptyString.

(** [name.rfind('.')], counted from the left; [None] when there is no dot. *)
Fixpoint rfind_dot (s : string) : option nat :=
  match s with
  | EmptyString => None
  | String c t =>
      match rfind_dot t with
      | Some i => Some (S i)
      | None => if Ascii.eqb c dot then Some O else None
      end
  end.

Fixpoint drop (n : nat) (s : string) : string :=
  match n, s with
  | O, _ => s
  | S m, String _ t => drop m t
  | S _, EmptyString => EmptyString
  end.

(** [p.suffix]: from the last dot of the name, unless that dot is the
    first or the last character (the rule of CPython before 3.14). *)
Definition suffix (p : path) : string :=
  let n := name p in
  match rfind_dot n with
  | Some i =>
      if (Nat.ltb 0 i && Nat.ltb i (String.length n - 1))%bool
      then drop i n else EmptyString
  | None => EmptyString
  end.

End PathLib.

(** ** The world outside the program *)

Inductive encoding : Type := Utf8 | Latin1.

(** [run] is the shell ([subprocess.Popen] and [communicate]): exit code,
    standard output, standard error.  [read_text enc p] is
    [Path.read_text(encoding=enc, errors='ignore')] on the path printed as
    [p]; [None] stands for any raised [Exception].  [exists_] and
    [is_file] are the two [Path] tests. *)
Record world : Type := {
  run : string -> Z * string * string;
  read_text : encoding -> string -> option string;
  exists_ : string -> bool;
  is_file : string -> bool
}.

(** ** [tools/codestate_pr_report.py] *)

Module Reporter.

Definition SUPPORTED_EXTS : gset string :=
  list_to_set
    [ ".py"; ".js"; ".ts"; ".jsx"; ".tsx"; ".mjs"; ".cjs";
      ".java"; ".c"; ".h"; ".cpp"; ".hpp"; ".cc"; ".cs"; ".go"; ".rb";
      ".php"; ".rs"; ".kt"; ".swift";
      ".m"; ".mm"; ".scala"; ".sh"; ".bash"; ".zsh"; ".ps1"; ".psm1";
      ".pl"; ".pm"; ".r"; ".jl"; ".lua";
      ".ex"; ".exs"; ".hs"; ".erl"; ".clj"; ".groovy"; ".dart"; ".sql";
      ".css"; ".scss"; ".sass"; ".less";
      ".html"; ".vue"; ".svelte"; ".hbs"; ".ejs"; ".jinja"; ".jinja2";
      ".njk" ].

Definition nonempty (s : string) : bool := negb (String.eqb s EmptyString).

Definition diff_command (base head : string) : string :=
  "git diff --name-only --diff-filter=ACMRTUXB "
  ++ Shlex.quote base ++ ".." ++ Shlex.quote head.

(** The warning printed on a failed [git diff] is not modelled. *)
Definition list_changed_files (w : world) (base head : string)
  : list string :=
  let '(code, out, err) := run w (diff_command base head) in
  let out :=
    if negb (Z.eqb code 0)
    then let '(_, out', _) := run w "git diff --name-only" in out'
    else out in
  let files := List.filter nonempty (map Py.strip (Py.splitlines out)) in
  flat_map
    (fun f =>
       let p := PathLib.Path f in
       if (bool_decide (Py.lower (PathLib.suffix p) ∈ SUPPORTED_EXTS)
           && exists_ w (PathLib.str p)
           && is_file w (PathLib.str p))%bool
       then [PathLib.str p] else [])
    files.

Definition block_start : list string := ["/*"; triple_sq; triple_dq].
Definition block_end : list string := ["*/"; triple_sq; triple_dq].

(** The loop body of [estimate_comment_lines] on the state
    [(comment, in_block)]. *)
Definition comment_step (ext : string) (st : Z * bool) (raw : string)
  : Z * bool :=
  let '(comment, in_block) := st in
  let s := Py.strip raw in
  if negb (nonempty s) then (comment, in_block)
  else if in_block then
    (comment + 1,
     if existsb (fun tok => Py.contains tok s) block_end
     then false else in_block)
  else if String.eqb ext ".py" then
    if Py.startswith s "#" then (comment + 1, in_block)
    else if (Py.startswith s triple_sq || Py.startswith s triple_dq)%bool
    then (comment + 1,
          if negb (Py.endswith s triple_sq || Py.endswith s triple_dq)%bool
          then true else in_block)
    else (comment, in_block)
  else
    if Py.startswith s "//" then (comment + 1, in_block)
    else if (Py.startswith s "/*" || Py.startswith s "<!--")%bool
    then (comment + 1, true)
    else (comment, in_block).

Definition estimate_comment_lines (ext : string) (lines : list string) : Z :=
  fst (fold_left (comment_step (Py.lower ext)) lines (0, false)).

(** [FUNC_PATTERNS], all under [re.I]:
    [\bdef\s+\w+\s*\(], [\bfunction\b|=>\s*\(] and
    [\b(class|interface)\s+\w+\b]. *)
Definition FUNC_PATTERNS : list Re.regex :=
  [ Re.Seq Re.Boundary
      (Re.Seq (Re.istring "def")
         (Re.Seq (Re.Plus Py.is_space)
            (Re.Seq (Re.Plus Re.is_word)
               (Re.Seq (Re.Star Py.is_space) (Re.ichar "(")))));
    Re.Alt
      (Re.Seq Re.Boundary (Re.Seq (Re.istring "function") Re.Boundary))
      (Re.Seq (Re.istring "=>")
         (Re.Seq (Re.Star Py.is_space) (Re.ichar "(")));
    Re.Seq Re.Boundary
      (Re.Seq (Re.Alt (Re.istring "class") (Re.istring "interface"))
         (Re.Seq (Re.Plus Py.is_space)
            (Re.Seq (Re.Plus Re.is_word) Re.Boundary))) ].

Definition COMPLEXITY_TOKENS : list string :=
  [ " if "; " for "; " while "; " case "; " when "; " elif "; " switch ";
    " catch "; " try ";
    "&&"; "||"; "?:"; "?"; " await "; " async "; " yield "; " except ";
    " with "; " and "; " or " ].

Definition count_functions (text : string) : Z :=
  fold_left (fun total pat => total + Z.of_nat (Re.findall_len pat text))
            FUNC_PATTERNS 0.

(** The padded, lowercased line scanned for tokens. *)
Definition padded (raw : string) : string :=
  Py.lower (" " ++ Py.strip raw ++ " ").

(** [sum(1 for tok in COMPLEXITY_TOKENS if tok in s)]. *)
Definition tokens_present (s : string) : Z :=
  fold_left (fun n tok => if Py.contains tok s then n + 1 else n)
            COMPLEXITY_TOKENS 0.

(** The integer [score] of [estimate_complexity] before [float(score)]. *)
Definition complexity_score (lines : list string) : Z :=
  fold_left (fun score raw => score + tokens_present (padded raw)) lines 0.

(** [float(score)]; the score of a file is far below the first integer
    that a binary64 cannot hold, so the conversion cannot raise: the
    overflow case is given the value it would round to. *)
Definition estimate_complexity (lines : list string) : float :=
  Py.float_round (complexity_score lines).

Definition read_lines (w : world) (p : PathLib.path) : list string :=
  match read_text w Utf8 (PathLib.str p) with
  | Some text => Py.splitlines text
  | None =>
      match read_text w Latin1 (PathLib.str p) with
      | Some text => Py.splitlines text
      | None => []
      end
  end.

(** One entry of [by_ext]. *)
Record ext_agg : Type := {
  agg_ext : string;
  file_count : Z;
  total_lines : Z;
  comment_lines : Z;
  function_count : Z
}.

(** [by_ext]: a dictionary from extension to its entry, in insertion
    order. *)
Definition by_ext_t : Type := list (string * ext_agg).

Fixpoint lookup_ext (ext : string) (m : by_ext_t) : option ext_agg :=
  match m with
  | [] => None
  | (k, a) :: m' => if String.eqb ext k then Some a else lookup_ext ext m'
  end.

(** [agg = by_ext.setdefault(ext, default)] followed by the update [upd]
    of [agg] in place: the entry of [ext] is updated where it stands, or
    the updated default is added at the end. *)
Fixpoint setdefault_update (ext : string) (default : ext_agg)
         (upd : ext_agg -> ext_agg) (m : by_ext_t) : by_ext_t :=
  match m with
  | [] => [(ext, upd default)]
  | (k, a) :: m' =>
      if String.eqb ext k then (k, upd a) :: m'
      else (k, a) :: setdefault_update ext default upd m'
  end.

(** The measurements of one file (the locals of the loop body). *)
Record measured : Type := {
  m_ext : string;
  m_total_lines : Z;
  m_comments : Z;
  m_func_count : Z;
  m_complexity : float
}.

Definition measure (w : world) (f : string) : measured :=
  let p := PathLib.Path f in
  let ext :=
    match Py.lower (PathLib.suffix p) with
    | EmptyString => "<none>"
    | e => e
    end in
  let lines := read_lines w p in
  let total_lines := Z.of_nat (length lines) in
  let comments := estimate_comment_lines ext lines in
  let text := Py.join nl lines in
  let func_count := count_functions text in
  let complexity := estimate_complexity lines in
  {| m_ext := ext; m_total_lines := total_lines; m_comments := comments;
     m_func_count := func_count; m_complexity := complexity |}.

(** The dictionary [pf]. *)
Definition per_file_record (f : string) (m : measured) : pydict :=
  [ ("file", PStr f);
    ("ext", PStr (m_ext m));
    ("total_lines", PInt (m_total_lines m));
    ("comment_lines", PInt (m_comments m));
    ("function_count", PInt (m_func_count m));
    ("complexity", PFloat (m_complexity m)) ].

Definition add_to_agg (m : measured) (agg : ext_agg) : ext_agg :=
  {| agg_ext := agg_ext agg;
     file_count := file_count agg + 1;
     total_lines := total_lines agg + m_total_lines m;
     comment_lines := comment_lines agg + m_comments m;
     function_count := function_count agg + m_func_count m |}.

Definition default_agg (ext : string) : ext_agg :=
  {| agg_ext := ext; file_count := 0; total_lines := 0;
     comment_lines := 0; function_count := 0 |}.

(** One turn of the loop of [analyze_files] on [(by_ext, per_file)]. *)
Definition analyze_step (w : world) (st : by_ext_t * list pydict)
           (f : string) : by_ext_t * list pydict :=
  let '(by_ext, per_file) := st in
  let m := measure w f in
  let pf := per_file_record f m in
  (setdefault_update (m_ext m) (default_agg (m_ext m)) (add_to_agg m) by_ext,
   (per_file ++ [pf])%list).

Definition analyze_files (w : world) (files : list string)
  : by_ext_t * list pydict :=
  fold_left (analyze_step w) files ([], []).

End Reporter.

(** ** [codestate/cli.py] *)

Module Cli.

(** The binary and asset extensions dropped from every file listing. *)
Definition EXCLUDE_EXTS : gset string :=
  list_to_set
    [ ".xlsx"; ".xls"; ".pdf"; ".png"; ".jpg"; ".jpeg"; ".gif"; ".zip";
      ".tar"; ".gz" ].

(** The columns of the engine's per-file records ([--details],
    [--excel], [--top], [--failures-only]). *)
Definition headers : list string :=
  [ "path"; "ext"; "total_lines"; "comment_lines"; "function_count";
    "complexity"; "function_avg_length"; "todo_count"; "blank_lines";
    "comment_only_lines"; "code_lines" ].

(** The dictionary [weights], in insertion order. *)
Definition weights : list (string * float) :=
  [ ("line_count", 0.25%float);
    ("commit_count", 0.20%float);
    ("added_lines", 0.25%float);
    ("deleted_lines", 0.15%float);
    ("active_days_last_30", 0.05%float);
    ("max_file_lines", 0.10%float) ].

Definition numeric_fields : list string := map fst weights.

Fixpoint weight_of (f : string) (ws : list (string * float)) : option float :=
  match ws with
  | [] => None
  | (k, x) :: ws' => if String.eqb f k then Some x else weight_of f ws'
  end.

Section Workload.

(** [float(s)] on a [str], left to Python. *)
Variable float_of_str : string -> option float.

(** [float(v)]; [None] stands for the raised exception. *)
Definition py_float (v : pyval) : option float :=
  match v with
  | PNone => None
  | PInt n => Py.float_of_int n
  | PFloat x => Some x
  | PStr s => float_of_str s
  end.

(** [float(s.get(f, 0)) * weights[f]], or [None] when it raises. *)
Definition weighted_term (s : gmap string pyval) (f : string)
  : option float :=
  match py_float (default (PInt 0) (s !! f)), weight_of f weights with
  | Some x, Some wf => Some (x * wf)%float
  | _, _ => None
  end.

(** The inner loop: a term that raises is passed over.  The score
    starts as the integer 0, which the first addition turns into the
    float 0.0; it is held as a float throughout. *)
Definition workload_score (s : gmap string pyval) : float :=
  fold_left
    (fun score f =>
       match weighted_term s f with
       | Some t => (score + t)%float
       | None => score
       end)
    numeric_fields 0%float.

(** [s['_detail_workload_score'] = score].  When every one of the six
    terms raises, the code stores the integer 0 it started from, where
    this stores the float 0.0; the two read back as the same number. *)
Definition with_score (s : gmap string pyval) : gmap string pyval :=
  <["_detail_workload_score" := PFloat (workload_score s)]> s.

Definition score_of (s : gmap string pyval) : float :=
  match s !! "_detail_workload_score" with
  | Some (PFloat x) => x
  | _ => 0%float
  end.

(** [sum(s['_detail_workload_score'] for s in stats)], by additions
    from left to right (CPython before 3.12; later versions compensate the
    rounding errors of a sum of floats). *)
Definition total_score_of (stats : list (gmap string pyval)) : float :=
  fold_left (fun acc s => (acc + score_of s)%float) stats 0%float.

(** The body of the last loop. *)
Definition with_percent (total_score : float) (s : gmap string pyval)
  : gmap string pyval :=
  if (0 <? total_score)%float
  then <["workload_percent" :=
           PStr (Py.format_1f (score_of s / total_score * 100)%float ++ "%")]> s
  else <["workload_percent" := PStr "0.0%"]> s.

(** The workload part of [--contributors-detail], up to the sort. *)
Definition contributors_detail (stats : list (gmap string pyval))
  : list (gmap string pyval) :=
  let stats := map with_score stats in
  let total_score := total_score_of stats in
  map (with_percent total_score) stats.

End Workload.

End Cli.

(** ** Vocabulary of the statements *)

(** The integer held by a field of a per-file record. *)
Definition int_field (k : string) (pf : pydict) : Z :=
  match dict_get k pf with
  | Some (PInt n) => n
  | _ => 0
  end.

Definition has_ext (ext : string) (pf : pydict) : bool :=
  match dict_get "ext" pf with
  | Some (PStr e) => String.eqb e ext
  | _ => false
  end.

Definition sum_field (k : string) (recs : list pydict) : Z :=
  fold_right (fun pf acc => int_field k pf + acc) 0 recs.

(** The record that [analyze_files] emits for the file [f]. *)
Definition record_of (w : world) (f : string) : pydict :=
  Reporter.per_file_record f (Reporter.measure w f).

(** The keys of every record of the reporter. *)
Definition reporter_keys : list string :=
  [ "file"; "ext"; "total_lines"; "comment_lines"; "function_count";
    "complexity" ].

Definition has_key (k : string) (pf : pydict) : bool :=
  match dict_get k pf with Some _ => true | None => false end.

(** The extension under which [analyze_files] files the path [f]. *)
Definition ext_of (f : string) : string :=
  match Py.lower (PathLib.suffix (PathLib.Path f)) with
  | EmptyString => "<none>"
  | e => e
  end.


(** Two worlds hold the same contents for the file [f]. *)
Definition same_contents (w1 w2 : world) (f : string) : Prop :=
  forall enc,
    read_text w1 enc (PathLib.str (PathLib.Path f))
    = read_text w2 enc (PathLib.str (PathLib.Path f)).

(** *** The classifier seen line by line *)

Inductive line_kind : Type := Blank | Comment | Code.

(** The path a line takes through the loop body of
    [estimate_comment_lines]: passed over as blank, counted as a comment,
    or neither. *)
Definition kind_of (ext : string) (st : Z * bool) (raw : string) : line_kind :=
  if negb (Reporter.nonempty (Py.strip raw)) then Blank
  else if fst (Reporter.comment_step ext st raw) =? fst st then Code
  else Comment.

Fixpoint kinds_from (ext : string) (st : Z * bool) (lines : list string)
  : list line_kind :=
  match lines with
  | [] => []
  | raw :: rest =>
      kind_of ext st raw :: kinds_from ext (Reporter.comment_step ext st raw) rest
  end.

Definition kinds (ext : string) (lines : list string) : list line_kind :=
  kinds_from (Py.lower ext) (0, false) lines.

Definition is_code (k : line_kind) : bool :=
  match k with Code => true | _ => false end.

(** The lines that are neither blank nor counted as comments. *)
Definition code_lines_of (ext : string) (lines : list string) : list string :=
  map fst (List.filter (fun p => is_code (snd p)) (combine lines (kinds ext lines))).

Definition blank_count (lines : list string) : Z :=
  Z.of_nat (length (List.filter (fun raw => negb (Reporter.nonempty (Py.strip raw))) lines)).

(** The state of the classifier after [lines]. *)
Definition final_state (ext : string) (lines : list string) : Z * bool :=
  fold_left (Reporter.comment_step (Py.lower ext)) lines (0, false).

(** *** The complexity score as the specification words it *)

(** [s.count(tok)]: the occurrences of [tok] in [s], from left to right
    and without overlap; [skip] characters are still covered by the last
    occurrence. *)
Fixpoint occurrences_from (tok : string) (skip : nat) (s : string) : Z :=
  match skip with
  | S n =>
      match s with
      | String _ t => occurrences_from tok n t
      | EmptyString => 0
      end
  | O =>
      match s with
      | String _ t =>
          if Py.startswith s tok
          then 1 + occurrences_from tok (Nat.pred (String.length tok)) t
          else occurrences_from tok O t
      | EmptyString => 0
      end
  end.

Definition occurrences (tok s : string) : Z := occurrences_from tok O s.

(** The score of the specification: over the code lines only, every
    occurrence of every token counts. *)
Definition spec_complexity (ext : string) (lines : list string) : Z :=
  fold_right
    (fun raw acc =>
       fold_right (fun tok n => occurrences tok (Reporter.padded raw) + n) 0
                  Reporter.COMPLEXITY_TOKENS + acc)
    0 (code_lines_of ext lines).

(** The tokens found on a padded line. *)
Definition tokens_on (s : string) : list string :=
  List.filter (fun tok => Py.contains tok s) Reporter.COMPLEXITY_TOKENS.

(** *** Synthetic files, in the words of the specification *)

(** A synthetic file is a sequence of items: a blank line, a single-line
    comment, a code line, or a block comment of three lines. *)
Inductive item : Type :=
| IBlank (raw : string)
| ILineComment (raw : string)
| ICode (raw : string)
| IBlock (first middle last : string).

Definition item_lines (it : item) : list string :=
  match it with
  | IBlank raw | ILineComment raw | ICode raw => [raw]
  | IBlock a b c => [a; b; c]
  end.

Definition render (items : list item) : list string :=
  flat_map item_lines items.

Definition is_py (ext : string) : bool := String.eqb ext ".py".

(** The comment syntax of the three families that the specification
    names: [#] with triple-quote blocks, [//] with [/* */], and the
    markup family with [<!--] and [-->]. *)
Inductive family : Type := HashFamily | CFamily | MarkupFamily.

Definition spec_line_tokens (fam : family) : list string :=
  match fam with
  | HashFamily => ["#"]
  | CFamily => ["//"]
  | MarkupFamily => []
  end.

(** The start and end token of the blocks of a family. *)
Definition spec_blocks (fam : family) : list (string * string) :=
  match fam with
  | HashFamily => [(triple_sq, triple_sq); (triple_dq, triple_dq)]
  | CFamily => [("/*", "*/")]
  | MarkupFamily => [("<!--", "-->")]
  end.

(** [s] without its first [n] characters. *)
Fixpoint string_drop (n : nat) (s : string) : string :=
  match n, s with
  | O, _ => s
  | S n', String _ t => string_drop n' t
  | S _, EmptyString => EmptyString
  end.

(** A block comment of three trimmed lines between [start] and [stop]:
    the first line starts with [start] and is not closed on that line,
    the second is not blank and does not hold [stop], the third ends with
    [stop]. *)
Definition spec_block (a b c : string) (tokens : string * string) : bool :=
  let '(start, stop) := tokens in
  (Py.startswith a start
   && negb (Py.contains stop (string_drop (String.length start) a))
   && Reporter.nonempty b && negb (Py.contains stop b)
   && Py.endswith c stop)%bool.

(** What each item is, by the syntax of the family: a blank line holds
    white space only, a single-line comment starts with the line token,
    a code line is not blank and starts with no comment token, a block
    is delimited by the block tokens. *)
Definition spec_item_ok (fam : family) (it : item) : bool :=
  match it with
  | IBlank raw => negb (Reporter.nonempty (Py.strip raw))
  | ILineComment raw =>
      existsb (Py.startswith (Py.strip raw)) (spec_line_tokens fam)
  | ICode raw =>
      (Reporter.nonempty (Py.strip raw)
       && negb (existsb (Py.startswith (Py.strip raw))
                        (spec_line_tokens fam ++ map fst (spec_blocks fam))))%bool
  | IBlock a b c =>
      existsb (spec_block (Py.strip a) (Py.strip b) (Py.strip c))
              (spec_blocks fam)
  end.

Definition has_end_token (s : string) : bool :=
  existsb (fun tok => Py.contains tok s) Reporter.block_end.

Definition count_items (p : item -> bool) (items : list item) : Z :=
  Z.of_nat (length (List.filter p items)).

Definition blank_item (it : item) : bool :=
  match it with IBlank _ => true | _ => false end.
Definition comment_item (it : item) : bool :=
  match it with ILineComment _ => true | _ => false end.
Definition code_item (it : item) : bool :=
  match it with ICode _ => true | _ => false end.
Definition block_item (it : item) : bool :=
  match it with IBlock _ _ _ => true | _ => false end.

(** *** Workload percentages *)

Definition digit_value (c : ascii) : option Z :=
  if Py.in_range 48 57 c then Some (Z.of_N (Py.code c) - 48) else None.

(** The digits of [s] up to the character [stop], read as a number, and
    what follows [stop]. *)
Fixpoint read_digits (stop : ascii) (acc : Z) (s : string)
  : option (Z * string) :=
  match s with
  | EmptyString => None
  | String c t =>
      if Ascii.eqb c stop then Some (acc, t)
      else match digit_value c with
           | Some d => read_digits stop (10 * acc + d) t
           | None => None
           end
  end.

(** The value of a percentage printed as [d...d.d%], in tenths of a
    percentage point. *)
Definition percent_tenths (s : string) : option Z :=
  match read_digits "." 0 s with
  | Some (whole, String d "%") =>
      match digit_value d with
      | Some f => Some (10 * whole + f)
      | None => None
      end
  | _ => None
  end.

Definition percent_field (s : gmap string pyval) : option Z :=
  match s !! "workload_percent" with
  | Some (PStr p) => percent_tenths p
  | _ => None
  end.

(** The sum of the printed percentages, in tenths. *)
Definition percent_sum (stats : list (gmap string pyval)) : Z :=
  fold_right (fun s acc => default 0 (percent_field s) + acc) 0 stats.

(** An author whose only non-zero figure is [n] current lines. *)
Definition author_with_lines (n : Z) : gmap string pyval :=
  {[ "author" := PStr "dev"; "line_count" := PInt n ]}.

(** [float(s)] for a world whose statistics hold no numeric strings. *)
Definition no_float_of_str : string -> option float := fun _ => None.

(** *** A small world for the examples *)

Definition demo_text : string :=
  "# add" ++ nl ++ "def add(a, b):" ++ nl ++ "    return a if b else b".

(** One readable Python file among the changed paths; every other path is
    unreadable. *)
Definition demo_world : world :=
  {| run := fun _ => (0, "src/app.py" ++ nl ++ "logo.png" ++ nl ++ "gone.js" ++ nl, EmptyString);
     read_text := fun _ p =>
       if String.eqb p "src/app.py" then Some demo_text else None;
     exists_ := fun _ => true;
     is_file := fun _ => true |}.

(** The same tree seen by a run whose [git] fails and whose other files
    differ. *)
Definition other_world : world :=
  {| run := fun _ => (1, EmptyString, "fatal: bad revision");
     read_text := fun _ p =>
       if String.eqb p "src/app.py" then Some demo_text else Some "x";
     exists_ := fun _ => false;
     is_file := fun _ => false |}.


(** The dictionary [by_ext] after the files [files], from [acc]. *)
Definition by_ext_from (w : world) (acc : Reporter.by_ext_t) (files : list string)
  : Reporter.by_ext_t :=
  fold_left
    (fun b f =>
       let m := Reporter.measure w f in
       Reporter.setdefault_update (Reporter.m_ext m)
         (Reporter.default_agg (Reporter.m_ext m)) (Reporter.add_to_agg m) b)
    files acc.

(** The entry of [by_ext] that the records of one extension add up to. *)
Definition agg_of_records (ext : string) (recs : list pydict)
  : option Reporter.ext_agg :=
  match recs with
  | [] => None
  | _ =>
      Some {| Reporter.agg_ext := ext;
              Reporter.file_count := Z.of_nat (length recs);
              Reporter.total_lines := sum_field "total_lines" recs;
              Reporter.comment_lines := sum_field "comment_lines" recs;
              Reporter.function_count := sum_field "function_count" recs |}
  end.

(** [float(s.get(f, 0))], or [None] when it raises. *)
Definition field_float (float_of_str : string -> option float)
           (s : gmap string pyval) (f : string) : option float :=
  Cli.py_float float_of_str (default (PInt 0) (s !! f)).

(** An author with a figure in each of the six weighted fields. *)
Definition busy_author : gmap string pyval :=
  {[ "author" := PStr "dev";
     "file_count" := PInt 9;
     "line_count" := PInt 120;
     "commit_count" := PInt 7;
     "added_lines" := PInt 300;
     "deleted_lines" := PInt 40;
     "active_days_last_30" := PInt 3;
     "max_file_lines" := PInt 80 ]}.

(** Fourteen authors with equal figures. *)
Definition fourteen_authors : list (gmap string pyval) :=
  repeat (author_with_lines 4) 14.

(** [total_score]: the sum of the scores of all authors. *)
Definition summed_score (float_of_str : string -> option float)
           (stats : list (gmap string pyval)) : float :=
  Cli.total_score_of (map (Cli.with_score float_of_str) stats).

(** The text stored under [workload_percent] for an author of score
    [score]. *)
Definition percent_text (total_score score : float) : string :=
  if (0 <? total_score)%float
  then Py.format_1f (score / total_score * 100)%float ++ "%"
  else "0.0%".

(** The numbers [N], [C] and [K] of a synthetic file with one block:
    its blank lines, single-line comments and code lines. *)
Definition synthetic (fam : family) (items : list item) (n c k : Z) : bool :=
  (forallb (spec_item_ok fam) items
   && (count_items block_item items =? 1)
   && (count_items blank_item items =? n)
   && (count_items comment_item items =? c)
   && (count_items code_item items =? k))%bool.

(** The number of lines that the classifier neither passes over as blank
    nor counts as comments. *)
Definition uncounted (ext : string) (lines : list string) : Z :=
  Z.of_nat (length (code_lines_of ext lines)).

(** A Python file: a docstring with its delimiters on lines of their
    own, and one statement. *)
Definition docstring_items : list item :=
  [ IBlock triple_dq "Add two numbers." triple_dq; ICode "x = 1" ].

(** A C file whose block comment quotes a triple quote on its second
    line. *)
Definition quoting_items : list item :=
  [ IBlock "/* The delimiter" (" * " ++ triple_sq ++ " opens a docstring.") " */";
    ICode "int x = 1;" ].

(** A markup file: a comment of three lines and two lines of text. *)
Definition markup_items : list item :=
  [ IBlock "<!-- header" "navigation" "-->";
    ICode "<p>one</p>"; ICode "<p>two</p>" ].

(** A world that holds the Python file. *)
Definition docstring_world : world :=
  {| run := fun _ => (0, "doc.py", EmptyString);
     read_text := fun _ p =>
       if String.eqb p "doc.py"
       then Some (Py.join nl (render docstring_items)) else None;
     exists_ := fun _ => true;
     is_file := fun _ => true |}.

(** *** Paths *)

Fixpoint no_slash (s : string) : bool :=
  match s with
  | EmptyString => true
  | String c t => (negb (Ascii.eqb c PathLib.slash) && no_slash t)%bool
  end.

(** A component that [Path] keeps: not empty, not a lone dot, no slash. *)
Definition part_ok (p : string) : bool :=
  (PathLib.keep_part p && no_slash p)%bool.

Definition root_ok (r : string) : bool :=
  (String.eqb r EmptyString || String.eqb r "/" || String.eqb r "//")%bool.

(** *** Floats *)

(** The specification floats that are not NaN and carry no minus sign. *)
Definition unsigned_float (sf : spec_float) : bool :=
  match sf with
  | S754_zero false | S754_infinity false | S754_finite false _ _ => true
  | _ => false
  end.

(** ** Further vocabulary *)

(** A line that the classifier and the complexity scan see as empty. *)
Definition blank_line (raw : string) : bool :=
  negb (Reporter.nonempty (Py.strip raw)).

(** A regular expression whose character classes do not tell a letter
    from its lowercase form. *)
Fixpoint case_blind (r : Re.regex) : Prop :=
  match r with
  | Re.Class p | Re.Star p => forall c, p (Py.lower_char c) = p c
  | Re.Boundary => True
  | Re.Seq r1 r2 | Re.Alt r1 r2 => case_blind r1 /\ case_blind r2
  end.

(** The sum of one column over the entries of [by_ext]. *)
Definition column_total (col : Reporter.ext_agg -> Z) (m : Reporter.by_ext_t) : Z :=
  fold_right (fun e acc => col (snd e) + acc) 0 m.

(** ** Built-in functions used by the renderers *)

Module Builtins.

(** [str(n)] for an [int]. *)
Definition str_int (n : Z) : string :=
  if n <? 0 then "-" ++ Py.decimal (- n) else Py.decimal n.

(** [int(x)] for a [float]: truncation towards zero; [None] stands for the
    exception raised on an infinity or a NaN. *)
Definition int_of_float (x : float) : option Z :=
  match Prim2SF x with
  | S754_zero _ => Some 0
  | S754_finite s m e =>
      let mag := if 0 <=? e then Z.pos m * 2 ^ e else Z.pos m / 2 ^ (- e) in
      Some (if s then - mag else mag)
  | _ => None
  end.

(** [s.replace(c, by)] for a pattern [c] of one character. *)
Fixpoint replace_char (c : ascii) (by_ : string) (s : string) : string :=
  match s with
  | EmptyString => EmptyString
  | String x t =>
      if Ascii.eqb x c then by_ ++ replace_char c by_ t
      else String x (replace_char c by_ t)
  end.

(** [l[:n]]: the first [n] elements, or all but the last [-n] for a
    negative [n]. *)
Definition slice_to {A : Type} (n : Z) (l : list A) : list A :=
  if 0 <=? n then firstn (Z.to_nat n) l
  else firstn (length l - Z.to_nat (- n)) l.

Section Sorted.

Context {A K : Type}.

(** The key function and the strict order of the keys: [before a b] when
    [a] sorts before [b] ([a < b], or [b < a] under [reverse=True]). *)
Variable key : A -> K.
Variable before : K -> K -> bool.

(** [x], which stood before all of [l], goes in front of the first
    element that does not sort before it. *)
Fixpoint insert (x : A) (l : list A) : list A :=
  match l with
  | [] => [x]
  | y :: l' =>
      if before (key y) (key x) then y :: insert x l' else x :: y :: l'
  end.

(** [sorted(l, key=key)]: the stable sort, which is what the built-in
    returns whenever the keys are totally preordered by [before]. *)
Definition sorted (l : list A) : list A := fold_right insert [] l.

End Sorted.

(** [k1 < k2] for two tuples of an [int] and a [str]: the first components
    decide unless they are equal. *)
Definition key_lt (k1 k2 : Z * string) : bool :=
  if fst k1 =? fst k2 then String.ltb (snd k1) (snd k2)
  else fst k1 <? fst k2.

(** [k1 < k2] for two tuples of a [float] and an [int]. *)
Definition fkey_lt (k1 k2 : float * Z) : bool :=
  if (fst k1 =? fst k2)%float then snd k1 <? snd k2
  else (fst k1 <? fst k2)%float.

End Builtins.

(** ** [html.escape] *)

Module Html.

(** The five replacements of [escape(s, quote=True)], the ampersand
    first. *)
Definition escape (s : string) : string :=
  let s := Builtins.replace_char "&" "&amp;" s in
  let s := Builtins.replace_char "<" "&lt;" s in
  let s := Builtins.replace_char ">" "&gt;" s in
  let s := Builtins.replace_char (ascii_of_N 34) "&quot;" s in
  let s := Builtins.replace_char (ascii_of_N 39) "&#x27;" s in
  s.

End Html.

(** ** The tables of [render_markdown] and [render_html]

    The rows of the tables are modelled; the bars, the headings and the
    page around them are not. *)

Module Tables.

(** The key [(-x['total_lines'], x['ext'])]. *)
Definition ext_key (e : Reporter.ext_agg) : Z * string :=
  (- Reporter.total_lines e, Reporter.agg_ext e).

(** [exts]: [sorted(by_ext.values(), key=...)]. *)
Definition exts (by_ext : Reporter.by_ext_t) : list Reporter.ext_agg :=
  Builtins.sorted ext_key Builtins.key_lt (map snd by_ext).

(** One row of the Markdown summary. *)
Definition md_row (e : Reporter.ext_agg) : string :=
  "| " ++ Reporter.agg_ext e ++ " | "
  ++ Builtins.str_int (Reporter.file_count e) ++ " | "
  ++ Builtins.str_int (Reporter.total_lines e) ++ " | "
  ++ Builtins.str_int (Reporter.comment_lines e) ++ " | "
  ++ Builtins.str_int (Reporter.function_count e) ++ " |".

(** [rows] of [render_markdown]. *)
Definition md_rows (by_ext : Reporter.by_ext_t) : list string :=
  map md_row (exts by_ext).

Definition td_right (text : string) : string :=
  "<td style='text-align:right'>" ++ text ++ "</td>".

(** One row of the HTML summary. *)
Definition html_ext_row (e : Reporter.ext_agg) : string :=
  "<tr><td>" ++ Html.escape (Reporter.agg_ext e) ++ "</td>"
  ++ td_right (Builtins.str_int (Reporter.file_count e))
  ++ td_right (Builtins.str_int (Reporter.total_lines e))
  ++ td_right (Builtins.str_int (Reporter.comment_lines e))
  ++ td_right (Builtins.str_int (Reporter.function_count e)) ++ "</tr>".

(** [ext_rows] of [render_html]. *)
Definition ext_rows (by_ext : Reporter.by_ext_t) : list string :=
  map html_ext_row (exts by_ext).

(** A per-file record with the six fields of [analyze_files], read with
    their types. *)
Record file_row : Type := {
  r_file : string;
  r_ext : string;
  r_total_lines : Z;
  r_comment_lines : Z;
  r_function_count : Z;
  r_complexity : float
}.

(** The fields that the renderers read from a record; [None] when one is
    missing or is not of the type that [analyze_files] gives it. *)
Definition as_row (pf : pydict) : option file_row :=
  match dict_get "file" pf, dict_get "ext" pf, dict_get "total_lines" pf,
        dict_get "comment_lines" pf, dict_get "function_count" pf,
        dict_get "complexity" pf with
  | Some (PStr f), Some (PStr e), Some (PInt t), Some (PInt c),
    Some (PInt n), Some (PFloat x) =>
      Some {| r_file := f; r_ext := e; r_total_lines := t;
              r_comment_lines := c; r_function_count := n;
              r_complexity := x |}
  | _, _, _, _, _, _ => None
  end.

Fixpoint all_some {A : Type} (l : list (option A)) : option (list A) :=
  match l with
  | [] => Some []
  | Some x :: l' =>
      match all_some l' with
      | Some xs => Some (x :: xs)
      | None => None
      end
  | None :: _ => None
  end.

(** The key [(-x['total_lines'], x['file'])]. *)
Definition file_key (r : file_row) : Z * string :=
  (- r_total_lines r, r_file r).

(** The order of the per-file rows of [render_html]. *)
Definition sorted_files (rows : list file_row) : list file_row :=
  Builtins.sorted file_key Builtins.key_lt rows.

(** One per-file row of the HTML table; [None] when [int] raises on the
    complexity. *)
Definition html_row (r : file_row) : option string :=
  match Builtins.int_of_float (r_complexity r) with
  | Some c =>
      Some ("<tr><td>" ++ Html.escape (r_file r) ++ "</td><td>"
            ++ Html.escape (r_ext r) ++ "</td>"
            ++ td_right (Builtins.str_int (r_total_lines r))
            ++ td_right (Builtins.str_int (r_comment_lines r))
            ++ td_right (Builtins.str_int (r_function_count r))
            ++ td_right (Builtins.str_int c) ++ "</tr>")
  | None => None
  end.

(** [html_rows] of [render_html]. *)
Definition html_rows (per_file : list pydict) : option (list string) :=
  match all_some (map as_row per_file) with
  | Some rows => all_some (map html_row (sorted_files rows))
  | None => None
  end.

(** The key [(-x['complexity'], -x['total_lines'])]. *)
Definition complexity_key (r : file_row) : float * Z :=
  ((- r_complexity r)%float, - r_total_lines r).

(** [top_complex] of [render_markdown]: the first ten of the records in
    the order of their complexity. *)
Definition top_complex (rows : list file_row) : list file_row :=
  Builtins.slice_to 10
    (Builtins.sorted complexity_key Builtins.fkey_lt rows).

End Tables.

(** The number of occurrences of a character. *)
Fixpoint count_char (x : ascii) (s : string) : nat :=
  match s with
  | EmptyString => O
  | String c t => ((if Ascii.eqb c x then 1 else 0) + count_char x t)%nat
  end.

(** The order of the summary rows: more lines first, then the extension
    in the order of strings. *)
Definition ext_order (a b : Reporter.ext_agg) : Prop :=
  Reporter.total_lines b < Reporter.total_lines a
  \/ (Reporter.total_lines a = Reporter.total_lines b
      /\ String.leb (Reporter.agg_ext a) (Reporter.agg_ext b) = true).

(** The order of the per-file rows: more lines first, then the path. *)
Definition file_order (a b : Tables.file_row) : Prop :=
  Tables.r_total_lines b < Tables.r_total_lines a
  \/ (Tables.r_total_lines a = Tables.r_total_lines b
      /\ String.leb (Tables.r_file a) (Tables.r_file b) = true).

(** The typed row of the record that [analyze_files] emits for [f]. *)
Definition row_of (w : world) (f : string) : Tables.file_row :=
  let m := Reporter.measure w f in
  {| Tables.r_file := f;
     Tables.r_ext := Reporter.m_ext m;
     Tables.r_total_lines := Reporter.m_total_lines m;
     Tables.r_comment_lines := Reporter.m_comments m;
     Tables.r_function_count := Reporter.m_func_count m;
     Tables.r_complexity := Reporter.m_complexity m |}.

(** ** The file listing of [codestate/cli.py] *)

Module Listing.

(** [e.lstrip(".")]. *)
Fixpoint lstrip_dots (s : string) : string :=
  match s with
  | EmptyString => EmptyString
  | String c t => if Ascii.eqb c "." then lstrip_dots t else s
  end.

(** [s.split(',')]: one more piece than there are commas. *)
Fixpoint split_comma (s : string) : list string :=
  match s with
  | EmptyString => [EmptyString]
  | String c t =>
      if Ascii.eqb c "," then EmptyString :: split_comma t
      else match split_comma t with
           | h :: r => String c h :: r
           | [] => [String c EmptyString]
           end
  end.

(** [only_exts] of the option [--only-lang]:
    [[f'.{e.strip().lstrip(".")}' for e in s.split(',') if e.strip()]]. *)
Definition only_exts (only_lang : string) : list string :=
  map (fun e => "." ++ lstrip_dots (Py.strip e))
      (List.filter (fun e => Reporter.nonempty (Py.strip e))
                   (split_comma only_lang)).

(** [v in only_exts] for the value [v] of a field. *)
Definition ext_in (exts : list string) (v : pyval) : bool :=
  match v with
  | PStr e => existsb (String.eqb e) exts
  | _ => false
  end.

(** [[f for f in data if f['ext'] in exts]]; [None] stands for the
    [KeyError] of a record without the field. *)
Fixpoint keep_exts (exts : list string) (data : list pydict)
  : option (list pydict) :=
  match data with
  | [] => Some []
  | f :: rest =>
      match dict_get "ext" f, keep_exts exts rest with
      | Some v, Some kept => Some (if ext_in exts v then f :: kept else kept)
      | _, _ => None
      end
  end.

(** The option [--only-lang], which an empty argument leaves off. *)
Definition only_lang (arg : option string) (data : list pydict)
  : option (list pydict) :=
  match arg with
  | Some (String c t) => keep_exts (only_exts (String c t)) data
  | _ => Some data
  end.

(** The option [--top]: under [if args.top:], the files in the order of
    decreasing [x.get('total_lines', 0)], cut by [[:args.top]].  The file
    details are taken to hold integers under [total_lines]
    ([lines_are_int] below), as those of the analyzer do. *)
Definition top_n (top : option Z) (data : list pydict) : list pydict :=
  match top with
  | Some n =>
      if n =? 0 then data
      else Builtins.slice_to n
             (Builtins.sorted (int_field "total_lines") Z.gtb data)
  | None => data
  end.

End Listing.

(** Every character of [s] passes [p]. *)
Fixpoint all_chars (p : ascii -> bool) (s : string) : bool :=
  match s with
  | EmptyString => true
  | String c t => (p c && all_chars p t)%bool
  end.

Definition not_comma (c : ascii) : bool := negb (Ascii.eqb c ",").

Definition plain_char (c : ascii) : bool :=
  (not_comma c && negb (Py.is_space c))%bool.

(** A bare extension name: not empty, without comma or white space, and
    not starting with a dot. *)
Definition bare (e : string) : bool :=
  match e with
  | EmptyString => false
  | String c t => (negb (Ascii.eqb c ".") && all_chars plain_char e)%bool
  end.

(** A record whose line count, if any, is an integer. *)
Definition lines_are_int (d : pydict) : Prop :=
  match dict_get "total_lines" d with
  | None | Some (PInt _) => True
  | Some _ => False
  end.

(** ** [main] of the reporter *)

Module Main.

(** [os.getenv(k1) or os.getenv(k2) or '']. *)
Definition env_or (getenv : string -> option string) (k1 k2 : string)
  : string :=
  match getenv k1 with
  | Some (String c t) => String c t
  | _ =>
      match getenv k2 with
      | Some (String c t) => String c t
      | _ => EmptyString
      end
  end.

(** The revisions compared: those of the environment when both are
    given, else what [git rev-parse] prints for [HEAD~1] and [HEAD]. *)
Definition range (getenv : string -> option string) (w : world)
  : string * string :=
  let base := env_or getenv "BASE_SHA" "GITHUB_BASE_SHA" in
  let head := env_or getenv "HEAD_SHA" "GITHUB_HEAD_SHA" in
  if (negb (Reporter.nonempty base) || negb (Reporter.nonempty head))%bool
  then
    let '(_, out, _) := run w "git rev-parse HEAD" in
    let head :=
      if Reporter.nonempty (Py.strip out) then Py.strip out else head in
    let '(_, out, _) := run w "git rev-parse HEAD~1" in
    let base :=
      if Reporter.nonempty (Py.strip out) then Py.strip out else base in
    (base, head)
  else (base, head).

(** [files] of [main]. *)
Definition files (getenv : string -> option string) (w : world)
  : list string :=
  let '(base, head) := range getenv w in
  Reporter.list_changed_files w base head.

(** [by_ext, per_file] of [main]. *)
Definition analysis (getenv : string -> option string) (w : world)
  : Reporter.by_ext_t * list pydict :=
  Reporter.analyze_files w (files getenv w).

End Main.

(** ** The order of the heatmap *)

(** A float that compares equal to itself: any float but a NaN. *)
Definition not_nan (x : float) : Prop := (x =? x)%float = true.

(** The place of a float in the order of the comparisons [<] and [==]:
    the sign class first (infinities outermost, both zeros in the
    middle), then exponent and mantissa, turned round for the negative
    floats. *)
Definition rank (f : spec_float) : Z * Z * Z :=
  match f with
  | S754_zero _ => (0, 0, 0)
  | S754_infinity false => (2, 0, 0)
  | S754_infinity true => (-2, 0, 0)
  | S754_nan => (0, 0, 0)
  | S754_finite false m e => (1, e, Z.pos m)
  | S754_finite true m e => (-1, - e, - Z.pos m)
  end.

(** [a] strictly before [b] in the lexicographic order of the ranks. *)
Definition rank_lt (a b : Z * Z * Z) : Prop :=
  let '(a1, a2, a3) := a in
  let '(b1, b2, b3) := b in
  a1 < b1 \/ (a1 = b1 /\ (a2 < b2 \/ (a2 = b2 /\ a3 < b3))).

(** [a] may stand in front of [b] in the heatmap: it is more complex, or
    as complex and not shorter. *)
Definition complexity_order (a b : Tables.file_row) : Prop :=
  (Tables.r_complexity b <? Tables.r_complexity a)%float = true
  \/ ((Tables.r_complexity a =? Tables.r_complexity b)%float = true
      /\ Tables.r_total_lines b <= Tables.r_total_lines a).

(** * Properties *)

(** ** The embedding on small inputs *)

Example strip_sample :
  Py.strip (String (ascii_of_N 9) "  a b " ++ nl) = "a b".
Proof. reflexivity. Qed.

Example splitlines_sample :
  Py.splitlines ("a" ++ String (ascii_of_N 13) nl ++ "b" ++ nl ++ nl ++ "c")
  = ["a"; "b"; EmptyString; "c"].
Proof. reflexivity. Qed.

Example path_sample :
  PathLib.str (PathLib.Path "./src//pkg/mod.test.PY") = "src/pkg/mod.test.PY"
  /\ PathLib.suffix (PathLib.Path "./src//pkg/mod.test.PY") = ".PY"
  /\ PathLib.suffix (PathLib.Path ".gitignore") = EmptyString
  /\ ext_of "Makefile" = "<none>".
Proof. repeat split. Qed.

Example quote_sample :
  Reporter.diff_command "main" "it's"
  = "git diff --name-only --diff-filter=ACMRTUXB main..'it'"
    ++ dq ++ "'" ++ dq ++ "'s'".
Proof. reflexivity. Qed.

Example count_functions_sample :
  Reporter.count_functions
    ("def add(a, b):" ++ nl ++ "class Adder:" ++ nl ++ "  f = x => (x)" ++ nl
     ++ "function g() {}" ++ nl ++ "undefined (x); classes")
  = 4.
Proof. vm_compute. reflexivity. Qed.

Example comment_lines_sample :
  Reporter.estimate_comment_lines ".C"
    [ "// one"; "int x; // trailing"; EmptyString; "/* open"; "still"; "end */";
      "int y;" ]
  = 4.
Proof. vm_compute. reflexivity. Qed.

Example changed_files_sample :
  Reporter.list_changed_files demo_world "main" "topic"
  = ["src/app.py"; "gone.js"].
Proof. vm_compute. reflexivity. Qed.

Example format_sample :
  Py.format_1f 6.25 = "6.2" /\ Py.format_1f 99.96 = "100.0"
  /\ Py.format_1f 0.05 = "0.1" /\ Py.format_1f (-0.01) = "-0.0".
Proof. repeat split; vm_compute; reflexivity. Qed.

(** ** The shape of [analyze_files] *)

Lemma analyze_fold (w : world) (files : list string) :
  forall b p,
    fold_left (Reporter.analyze_step w) files (b, p)
    = (by_ext_from w b files, (p ++ map (record_of w) files)%list).
Proof.
  induction files as [|f files IH]; intros b p; simpl.
  - now rewrite app_nil_r.
  - rewrite IH. unfold record_of. now rewrite <- app_assoc.
Qed.

Lemma analyze_files_snd (w : world) (files : list string) :
  snd (Reporter.analyze_files w files) = map (record_of w) files.
Proof. unfold Reporter.analyze_files. now rewrite analyze_fold. Qed.

Lemma analyze_files_fst (w : world) (files : list string) :
  fst (Reporter.analyze_files w files) = by_ext_from w [] files.
Proof. unfold Reporter.analyze_files. now rewrite analyze_fold. Qed.

Lemma by_ext_from_snoc (w : world) (files : list string) (f : string) :
  by_ext_from w [] (files ++ [f])
  = let m := Reporter.measure w f in
    Reporter.setdefault_update (Reporter.m_ext m)
      (Reporter.default_agg (Reporter.m_ext m)) (Reporter.add_to_agg m)
      (by_ext_from w [] files).
Proof. unfold by_ext_from. now rewrite fold_left_app. Qed.

Lemma measure_ext (w : world) (f : string) :
  Reporter.m_ext (Reporter.measure w f) = ext_of f.
Proof. reflexivity. Qed.

(** ** Dictionaries in insertion order *)

Lemma lookup_setdefault_update ext k d u m :
  Reporter.lookup_ext ext (Reporter.setdefault_update k d u m)
  = if String.eqb ext k
    then Some (u (match Reporter.lookup_ext k m with
                  | Some a => a
                  | None => d
                  end))
    else Reporter.lookup_ext ext m.
Proof.
  induction m as [|[k' a] m IH]; simpl.
  - reflexivity.
  - destruct (String.eqb k k') eqn:Ek; simpl.
    + apply String.eqb_eq in Ek. subst k'.
      destruct (String.eqb ext k) eqn:E; reflexivity.
    + rewrite IH. destruct (String.eqb ext k') eqn:E'.
      * apply String.eqb_eq in E'. subst k'.
        destruct (String.eqb ext k) eqn:E; [|reflexivity].
        apply String.eqb_eq in E. subst k. rewrite String.eqb_refl in Ek.
        discriminate.
      * reflexivity.
Qed.

Lemma keys_setdefault_update k d u m :
  map fst (Reporter.setdefault_update k d u m)
  = match Reporter.lookup_ext k m with
    | Some _ => map fst m
    | None => (map fst m ++ [k])%list
    end.
Proof.
  induction m as [|[k' a] m IH]; simpl; [reflexivity|].
  destruct (String.eqb k k') eqn:Ek; simpl; [reflexivity|].
  rewrite IH. now destruct (Reporter.lookup_ext k m).
Qed.

Lemma lookup_ext_None_keys k m :
  Reporter.lookup_ext k m = None -> ~ In k (map fst m).
Proof.
  induction m as [|[k' a] m IH]; simpl; [tauto|].
  destruct (String.eqb k k') eqn:Ek; [discriminate|].
  intros H [Heq|Hin]; [|now apply IH].
  subst k'. rewrite String.eqb_refl in Ek. discriminate.
Qed.

Lemma NoDup_snoc {A : Type} (l : list A) (x : A) :
  List.NoDup l -> ~ In x l -> List.NoDup (l ++ [x]).
Proof.
  intros Hl Hx. apply NoDup_rev in Hl.
  rewrite <- (rev_involutive (l ++ [x])). apply NoDup_rev.
  rewrite rev_app_distr. simpl. constructor; [|assumption].
  now rewrite <- in_rev.
Qed.

Lemma keys_NoDup (w : world) (files : list string) :
  List.NoDup (map fst (by_ext_from w [] files)).
Proof.
  induction files as [|f files IH] using rev_ind.
  - constructor.
  - rewrite by_ext_from_snoc. cbv zeta. rewrite keys_setdefault_update.
    destruct (Reporter.lookup_ext _ _) eqn:E; [assumption|].
    apply NoDup_snoc; [assumption|]. now apply lookup_ext_None_keys.
Qed.

(** ** Sums over the per-file records *)

Lemma sum_field_app k (a b : list pydict) :
  sum_field k (a ++ b) = sum_field k a + sum_field k b.
Proof.
  induction a as [|x a IH]; simpl; [reflexivity|].
  unfold sum_field in *. simpl. rewrite IH. lia.
Qed.

Lemma has_ext_record (w : world) (f ext : string) :
  has_ext ext (record_of w f) = String.eqb (ext_of f) ext.
Proof. reflexivity. Qed.

Lemma agg_eq e1 c1 t1 m1 f1 e2 c2 t2 m2 f2 :
  e1 = e2 -> c1 = c2 -> t1 = t2 -> m1 = m2 -> f1 = f2 ->
  {| Reporter.agg_ext := e1; Reporter.file_count := c1;
     Reporter.total_lines := t1; Reporter.comment_lines := m1;
     Reporter.function_count := f1 |}
  = {| Reporter.agg_ext := e2; Reporter.file_count := c2;
       Reporter.total_lines := t2; Reporter.comment_lines := m2;
       Reporter.function_count := f2 |}.
Proof. now intros -> -> -> -> ->. Qed.

Lemma agg_of_records_snoc (w : world) (f ext : string) (recs : list pydict)
      (a : option Reporter.ext_agg) :
  a = agg_of_records ext recs ->
  Some (Reporter.add_to_agg (Reporter.measure w f)
          (match a with
           | Some x => x
           | None => Reporter.default_agg ext
           end))
  = agg_of_records ext (recs ++ [record_of w f]).
Proof.
  intros ->. destruct recs as [|r rs].
  - simpl. f_equal. apply agg_eq; try reflexivity;
      unfold sum_field, int_field; simpl; lia.
  - change (agg_of_records ext ((r :: rs) ++ [record_of w f]))
      with (Some {| Reporter.agg_ext := ext;
                    Reporter.file_count :=
                      Z.of_nat (length ((r :: rs) ++ [record_of w f]));
                    Reporter.total_lines :=
                      sum_field "total_lines" ((r :: rs) ++ [record_of w f]);
                    Reporter.comment_lines :=
                      sum_field "comment_lines" ((r :: rs) ++ [record_of w f]);
                    Reporter.function_count :=
                      sum_field "function_count" ((r :: rs) ++ [record_of w f]) |}).
    cbn [agg_of_records]. unfold Reporter.add_to_agg. cbn [Reporter.agg_ext
      Reporter.file_count Reporter.total_lines Reporter.comment_lines
      Reporter.function_count].
    f_equal. apply agg_eq; rewrite ?sum_field_app, ?length_app; try reflexivity.
    + simpl length. lia.
    + unfold sum_field at 3, int_field. simpl. lia.
    + unfold sum_field at 3, int_field. simpl. lia.
    + unfold sum_field at 3, int_field. simpl. lia.
Qed.

(** C9.  The per-extension aggregate is the image of the per-file records:
    the keys of [by_ext] are distinct, and the entry of an extension holds
    the number of records with that extension and the sums of their
    [total_lines], [comment_lines] and [function_count]; an extension
    with no record has no entry. *)
Theorem by_ext_is_sum_of_records (w : world) (files : list string) (ext : string) :
  let by_ext := fst (Reporter.analyze_files w files) in
  let recs := List.filter (has_ext ext) (snd (Reporter.analyze_files w files)) in
  List.NoDup (map fst by_ext) /\
  Reporter.lookup_ext ext by_ext = agg_of_records ext recs.
Proof.
  cbv zeta. rewrite analyze_files_fst, analyze_files_snd. split.
  - apply keys_NoDup.
  - induction files as [|f files IH] using rev_ind; [reflexivity|].
    rewrite by_ext_from_snoc. cbv zeta.
    rewrite lookup_setdefault_update, List.map_app, List.filter_app.
    rewrite measure_ext. simpl map. simpl List.filter.
    rewrite has_ext_record.
    destruct (String.eqb ext (ext_of f)) eqn:E.
    + apply String.eqb_eq in E. subst ext. rewrite String.eqb_refl.
      apply agg_of_records_snoc. exact IH.
    + rewrite String.eqb_sym, E, app_nil_r. exact IH.
Qed.

(** ** The per-file records *)

(** The engine's columns that the reporter's record of the example file
    lacks: C1 as stated fails on it. *)
Lemma reporter_record_lacks_engine_fields :
  snd (Reporter.analyze_files demo_world ["src/app.py"])
  = [ [ ("file", PStr "src/app.py"); ("ext", PStr ".py");
        ("total_lines", PInt 3); ("comment_lines", PInt 1);
        ("function_count", PInt 1); ("complexity", PFloat 1%float) ] ]
  /\ List.filter (fun h => negb (has_key h (record_of demo_world "src/app.py")))
                 Cli.headers
     = [ "path"; "function_avg_length"; "todo_count"; "blank_lines";
         "comment_only_lines"; "code_lines" ].
Proof. split; vm_compute; reflexivity. Qed.

(** C1, amended.  Every record of the reporter has exactly the six keys
    [file], [ext], [total_lines], [comment_lines], [function_count] and
    [complexity], in this order, with the path under [file]; of the
    engine's eleven columns it carries the five named [ext],
    [total_lines], [comment_lines], [function_count] and [complexity]. *)
Theorem reporter_record_fields (w : world) (files : list string) :
  Forall2
    (fun f pf =>
       dict_keys pf = reporter_keys
       /\ dict_get "file" pf = Some (PStr f)
       /\ List.filter (fun h => has_key h pf) Cli.headers
          = [ "ext"; "total_lines"; "comment_lines"; "function_count";
              "complexity" ])
    files (snd (Reporter.analyze_files w files)).
Proof.
  rewrite analyze_files_snd.
  induction files as [|f files IH]; constructor; [|exact IH].
  repeat split; reflexivity.
Qed.

(** ** Unreadable files *)




(** ** Determinism *)

Lemma measure_same (w1 w2 : world) (f : string) :
  same_contents w1 w2 f -> Reporter.measure w1 f = Reporter.measure w2 f.
Proof.
  intros H. unfold Reporter.measure, Reporter.read_lines.
  now rewrite (H Utf8), (H Latin1).
Qed.

Lemma analyze_fold_same (w1 w2 : world) (files : list string) :
  Forall (same_contents w1 w2) files ->
  forall st,
    fold_left (Reporter.analyze_step w1) files st
    = fold_left (Reporter.analyze_step w2) files st.
Proof.
  induction 1 as [|f files Hf _ IH]; intros st; simpl; [reflexivity|].
  rewrite <- IH. f_equal. destruct st as [b p]. unfold Reporter.analyze_step.
  now rewrite (measure_same w1 w2 f Hf).
Qed.

(** C8.  The analysis is a function of the file list and of the contents
    of the listed files: two runs over the same list, in worlds that hold
    the same contents for these files, return the same aggregate and the
    same per-file records, which stand in the order of the list. *)
Theorem analysis_deterministic (w1 w2 : world) (files : list string) :
  Forall (same_contents w1 w2) files ->
  Reporter.analyze_files w1 files = Reporter.analyze_files w2 files
  /\ map (dict_get "file") (snd (Reporter.analyze_files w1 files))
     = map (fun f => Some (PStr f)) files.
Proof.
  intros H. split.
  - unfold Reporter.analyze_files. now apply analyze_fold_same.
  - rewrite analyze_files_snd, map_map. reflexivity.
Qed.

Lemma analysis_deterministic_witness :
  Forall (same_contents demo_world other_world) ["src/app.py"; "src/app.py"]
  /\ Reporter.analyze_files demo_world ["src/app.py"; "src/app.py"]
     = Reporter.analyze_files other_world ["src/app.py"; "src/app.py"].
Proof.
  assert (H : Forall (same_contents demo_world other_world)
                     ["src/app.py"; "src/app.py"])
    by (repeat constructor; intros enc; reflexivity).
  split; [exact H|].
  exact (proj1 (analysis_deterministic demo_world other_world
                  ["src/app.py"; "src/app.py"] H)).
Defined.

(** ** The comment classifier *)

(** Outside the Python family a line that starts a block comment opens
    the block whatever else it holds, an end token included. *)
Lemma c_like_block_start_opens (ext raw : string) (k : Z) :
  is_py ext = false ->
  Py.startswith (Py.strip raw) "/*" = true ->
  Reporter.comment_step ext (k, false) raw = (k + 1, true).
Proof.
  unfold is_py. intros Hext Hs. unfold Reporter.comment_step.
  rewrite Hext, Hs. remember (Py.strip raw) as s eqn:Es. clear Es.
  destruct s as [|c1 [|c2 t]]; cbn [Py.startswith] in Hs |- *;
    try discriminate.
  - now destruct (Ascii.eqb "/" c1).
  - destruct (Ascii.eqb "/" c1); [|discriminate].
    destruct (Ascii.eqb "*" c2) eqn:E2; [|discriminate].
    apply Ascii.eqb_eq in E2. subst c2. reflexivity.
Qed.

(** C2 (defect).  In a JavaScript file the one-line comment
    [/* setup */] leaves the classifier inside a block, so the code line
    after it is counted as a comment; the Python branch, on a docstring
    closed on its own line, stays outside and counts the next line as
    code. *)
Theorem closed_block_line_keeps_block_open :
  final_state ".js" ["/* setup */"] = (1, true)
  /\ Reporter.estimate_comment_lines ".js" ["/* setup */"; "x = 1;"] = 2
  /\ kinds ".js" ["/* setup */"; "x = 1;"] = [Comment; Comment]
  /\ final_state ".py" [triple_dq ++ "setup" ++ triple_dq] = (1, false)
  /\ kinds ".py" [triple_dq ++ "setup" ++ triple_dq; "x = 1"] = [Comment; Code].
Proof. repeat split; vm_compute; reflexivity. Qed.

(** ** The float of a non-negative integer *)

Lemma shr_1_nonneg (mrs : shr_record) :
  0 <= shr_m mrs -> 0 <= shr_m (shr_1 mrs).
Proof.
  destruct mrs as [m r s]. cbn [shr_m]. intros H.
  destruct m as [|p|p]; [| |lia]; [cbn; lia|].
  destruct p; cbn; lia.
Qed.

Lemma iter_pos_invariant {A : Type} (P : A -> Prop) (f : A -> A) :
  (forall x, P x -> P (f x)) ->
  forall p x, P x -> P (SpecFloat.iter_pos f p x).
Proof.
  intros Hf. induction p as [p IH|p IH|]; intros x Hx; cbn; auto.
Qed.

Lemma shr_nonneg (mrs : shr_record) (e n : Z) :
  0 <= shr_m mrs -> 0 <= shr_m (fst (shr mrs e n)).
Proof.
  intros H. unfold shr. destruct n as [|p|p]; cbn [fst]; try assumption.
  apply (iter_pos_invariant (fun x => 0 <= shr_m x)); [|assumption].
  apply shr_1_nonneg.
Qed.

Lemma shr_fexp_nonneg (m e : Z) (l : location) :
  0 <= m -> 0 <= shr_m (fst (shr_fexp prec emax m e l)).
Proof.
  intros H. unfold shr_fexp. apply shr_nonneg.
  destruct l as [|[]]; exact H.
Qed.

Lemma round_nearest_even_nonneg (m : Z) (l : location) :
  0 <= m -> 0 <= round_nearest_even m l.
Proof.
  intros H. unfold round_nearest_even.
  destruct l as [|[]]; try lia. destruct (Z.even m); lia.
Qed.

Lemma binary_round_aux_unsigned (mx ex : Z) (lx : location) :
  0 <= mx ->
  unsigned_float (binary_round_aux prec emax false mx ex lx) = true.
Proof.
  intros H. unfold binary_round_aux.
  pose proof (shr_fexp_nonneg mx ex lx H) as H1.
  destruct (shr_fexp prec emax mx ex lx) as [mrs' e']. cbn [fst] in H1.
  pose proof (shr_fexp_nonneg
                (round_nearest_even (shr_m mrs') (loc_of_shr_record mrs'))
                e' loc_Exact
                (round_nearest_even_nonneg _ _ H1)) as H2.
  destruct (shr_fexp prec emax _ e' loc_Exact) as [mrs'' e''].
  cbn [fst] in H2.
  destruct (shr_m mrs'') as [|p|p]; [reflexivity| |lia].
  now destruct (e'' <=? emax - prec).
Qed.

Lemma binary_round_unsigned (mx : positive) (ex : Z) :
  unsigned_float (binary_round prec emax false mx ex) = true.
Proof.
  unfold binary_round. destruct (shl_align _ _ _) as [mz ez].
  apply binary_round_aux_unsigned. lia.
Qed.

Lemma binary_normalize_unsigned (n : Z) :
  0 <= n -> unsigned_float (binary_normalize prec emax n 0 false) = true.
Proof.
  intros H. destruct n as [|p|p]; [reflexivity| |lia].
  apply binary_round_unsigned.
Qed.

Lemma SFldexp_unsigned (sf : spec_float) (e : Z) :
  unsigned_float sf = true -> unsigned_float (SFldexp prec emax sf e) = true.
Proof.
  destruct sf as [[]|[]| |[] m ex]; try discriminate; intros _;
    try reflexivity.
  apply binary_round_unsigned.
Qed.

Lemma SFleb_zero_unsigned (sf : spec_float) :
  unsigned_float sf = true -> SFleb (S754_zero false) sf = true.
Proof. now destruct sf as [[]|[]| |[] m ex]. Qed.

Lemma SF2Prim_unsigned (sf : spec_float) :
  unsigned_float sf = true -> (0 <=? SF2Prim sf)%float = true.
Proof.
  destruct sf as [[]|[]| |[] m e]; try discriminate; intros _;
    try reflexivity.
  cbn [SF2Prim]. rewrite leb_spec, Z_ldexp_spec, of_uint63_spec.
  change (Prim2SF 0) with (S754_zero false).
  apply SFleb_zero_unsigned, SFldexp_unsigned, binary_normalize_unsigned.
  apply Uint63.to_Z_bounded.
Qed.

Lemma float_round_nonneg (n : Z) :
  0 <= n -> (0 <=? Py.float_round n)%float = true.
Proof.
  intros H. apply SF2Prim_unsigned. now apply binary_normalize_unsigned.
Qed.

(** ** The complexity score *)

Lemma tokens_present_from (s : string) (toks : list string) :
  forall n,
    fold_left (fun n tok => if Py.contains tok s then n + 1 else n) toks n
    = n + Z.of_nat (length (List.filter (fun tok => Py.contains tok s) toks)).
Proof.
  induction toks as [|tok toks IH]; intros n; simpl; [lia|].
  rewrite IH. destruct (Py.contains tok s); simpl length; lia.
Qed.

Lemma tokens_present_count (s : string) :
  Reporter.tokens_present s = Z.of_nat (length (tokens_on s)).
Proof. unfold Reporter.tokens_present. now rewrite tokens_present_from. Qed.

Lemma tokens_present_bounds (s : string) :
  0 <= Reporter.tokens_present s <= 20.
Proof.
  rewrite tokens_present_count. unfold tokens_on.
  pose proof (List.filter_length_le (fun tok => Py.contains tok s)
                Reporter.COMPLEXITY_TOKENS) as H.
  change (length Reporter.COMPLEXITY_TOKENS) with 20%nat in H. lia.
Qed.

Lemma complexity_score_from (lines : list string) :
  forall n,
    fold_left (fun score raw => score + Reporter.tokens_present (Reporter.padded raw))
              lines n
    = n + fold_right
            (fun raw acc => Z.of_nat (length (tokens_on (Reporter.padded raw))) + acc)
            0 lines.
Proof.
  induction lines as [|raw lines IH]; intros n; simpl; [lia|].
  rewrite IH, tokens_present_count. lia.
Qed.

(** The score of the specification and the score of the code part on a
    code line that holds a token twice, and on a comment line that holds
    a token: C3 as stated fails on both. *)
Lemma complexity_counts_a_token_once_and_reads_comments :
  code_lines_of ".js" ["a && b && c"] = ["a && b && c"]
  /\ spec_complexity ".js" ["a && b && c"] = 2
  /\ Reporter.estimate_complexity ["a && b && c"] = 1%float
  /\ kinds ".js" ["// retry if stale"] = [Comment]
  /\ spec_complexity ".js" ["// retry if stale"] = 0
  /\ Reporter.estimate_complexity ["// retry if stale"] = 1%float.
Proof. repeat split; vm_compute; reflexivity. Qed.

(** C3, amended.  The complexity of a file is a non-negative float, the
    float of a non-negative integer: the sum, over all of its lines
    (comment lines included), of the number of vocabulary tokens found at
    least once on the stripped, space-padded, lowercased line; a line
    adds at most 20, one per token, however often a token occurs on it. *)
Theorem complexity_is_tokens_found_per_line (lines : list string) :
  Reporter.estimate_complexity lines
  = Py.float_round
      (fold_right
         (fun raw acc => Z.of_nat (length (tokens_on (Reporter.padded raw))) + acc)
         0 lines)
  /\ (0 <=? Reporter.estimate_complexity lines)%float = true
  /\ 0 <= Reporter.complexity_score lines <= 20 * Z.of_nat (length lines)
  /\ Forall (fun raw => (length (tokens_on (Reporter.padded raw)) <= 20)%nat) lines.
Proof.
  assert (Hb : 0 <= Reporter.complexity_score lines
               <= 20 * Z.of_nat (length lines)).
  { unfold Reporter.complexity_score. rewrite complexity_score_from.
    induction lines as [|raw lines IH]; simpl fold_right; simpl length; [lia|].
    pose proof (tokens_present_bounds (Reporter.padded raw)) as H.
    rewrite tokens_present_count in H. lia. }
  split; [|split; [|split]].
  - unfold Reporter.estimate_complexity, Reporter.complexity_score.
    now rewrite complexity_score_from.
  - unfold Reporter.estimate_complexity. apply float_round_nonneg. lia.
  - exact Hb.
  - apply List.Forall_forall. intros raw _.
    pose proof (tokens_present_bounds (Reporter.padded raw)) as H.
    rewrite tokens_present_count in H. lia.
Qed.

(** ** The workload score *)

Lemma weighted_term_frame (fs : string -> option float)
      (s s' : gmap string pyval) (f : string) :
  s' !! f = s !! f -> Cli.weighted_term fs s' f = Cli.weighted_term fs s f.
Proof. intros H. unfold Cli.weighted_term. now rewrite H. Qed.

Lemma score_fold_frame (fs : string -> option float)
      (s s' : gmap string pyval) (fields : list string) :
  (forall f, In f fields -> s' !! f = s !! f) ->
  forall acc,
    fold_left
      (fun score f =>
         match Cli.weighted_term fs s' f with
         | Some t => (score + t)%float
         | None => score
         end) fields acc
    = fold_left
        (fun score f =>
           match Cli.weighted_term fs s f with
           | Some t => (score + t)%float
           | None => score
           end) fields acc.
Proof.
  induction fields as [|f fields IH]; intros H acc; [reflexivity|].
  simpl. rewrite (weighted_term_frame fs s s' f) by (apply H; now left).
  apply IH. intros g Hg. apply H. now right.
Qed.

Lemma workload_score_frame (fs : string -> option float)
      (s s' : gmap string pyval) :
  (forall f, In f Cli.numeric_fields -> s' !! f = s !! f) ->
  Cli.workload_score fs s' = Cli.workload_score fs s.
Proof. intros H. unfold Cli.workload_score. now apply score_fold_frame. Qed.

(** C4.  When the six weighted fields convert to floats, the workload
    score is, in binary64 arithmetic and in this order, the sum
    [line_count*0.25 + commit_count*0.20 + added_lines*0.25 +
    deleted_lines*0.15 + active_days_last_30*0.05 + max_file_lines*0.10]
    added to 0; it is stored under [_detail_workload_score]; and a record
    that agrees on these six fields has the same score, whatever else it
    holds. *)
Theorem workload_score_is_weighted_sum (fs : string -> option float)
        (s : gmap string pyval) (x1 x2 x3 x4 x5 x6 : float) :
  field_float fs s "line_count" = Some x1 ->
  field_float fs s "commit_count" = Some x2 ->
  field_float fs s "added_lines" = Some x3 ->
  field_float fs s "deleted_lines" = Some x4 ->
  field_float fs s "active_days_last_30" = Some x5 ->
  field_float fs s "max_file_lines" = Some x6 ->
  Cli.workload_score fs s
  = (0 + x1 * 0.25 + x2 * 0.20 + x3 * 0.25 + x4 * 0.15 + x5 * 0.05
     + x6 * 0.10)%float
  /\ Cli.with_score fs s !! "_detail_workload_score"
     = Some (PFloat (Cli.workload_score fs s))
  /\ (forall s' : gmap string pyval,
        (forall f, In f Cli.numeric_fields -> s' !! f = s !! f) ->
        Cli.workload_score fs s' = Cli.workload_score fs s).
Proof.
  unfold field_float. intros H1 H2 H3 H4 H5 H6. repeat split.
  - unfold Cli.workload_score, Cli.numeric_fields, Cli.weights.
    cbn [map fst fold_left]. unfold Cli.weighted_term.
    rewrite H1, H2, H3, H4, H5, H6. reflexivity.
  - unfold Cli.with_score. apply lookup_insert_eq.
  - intros s'. apply workload_score_frame.
Qed.

Lemma workload_score_is_weighted_sum_witness :
  Cli.workload_score no_float_of_str busy_author
  = (0 + 120 * 0.25 + 7 * 0.20 + 300 * 0.25 + 40 * 0.15 + 3 * 0.05
     + 80 * 0.10)%float.
Proof.
  exact (proj1 (workload_score_is_weighted_sum no_float_of_str busy_author
                  120 7 300 40 3 80
                  eq_refl eq_refl eq_refl eq_refl eq_refl eq_refl)).
Defined.

(** ** Workload percentages *)

Lemma round_half_even_close (num den : Z) :
  0 < den -> 2 * Z.abs (Py.round_half_even num den * den - num) <= den.
Proof.
  intros Hden. unfold Py.round_half_even.
  pose proof (Z.div_mod num den ltac:(lia)) as Hdm.
  pose proof (Z.mod_pos_bound num den Hden) as Hr.
  destruct (Z.compare_spec (2 * (num mod den)) den) as [He|Hl|Hg];
    [destruct (Z.even (num / den))| |]; nia.
Qed.

Lemma score_of_with_score (fs : string -> option float) (s : gmap string pyval) :
  Cli.score_of (Cli.with_score fs s) = Cli.workload_score fs s.
Proof.
  unfold Cli.score_of, Cli.with_score. now rewrite lookup_insert_eq.
Qed.

Lemma with_percent_text (fs : string -> option float) (total : float)
      (s : gmap string pyval) :
  Cli.with_percent total (Cli.with_score fs s)
  = <["workload_percent" := PStr (percent_text total (Cli.workload_score fs s))]>
      (Cli.with_score fs s).
Proof.
  unfold Cli.with_percent, percent_text. rewrite score_of_with_score.
  now destruct (0 <? total)%float.
Qed.

(** Fourteen authors with the same figures: the total is positive, every
    share prints as 7.1%, and the printed values add up to 99.4%, 0.6 of
    a point short of 100%: C5 as stated fails on them. *)
Lemma fourteen_equal_authors_print_99_4 :
  (0 <? summed_score no_float_of_str fourteen_authors)%float = true
  /\ map (fun s : gmap string pyval => s !! "workload_percent")
         (Cli.contributors_detail no_float_of_str fourteen_authors)
     = repeat (Some (PStr "7.1%")) 14
  /\ percent_sum (Cli.contributors_detail no_float_of_str fourteen_authors) = 994
  /\ 1000 - percent_sum (Cli.contributors_detail no_float_of_str fourteen_authors)
     = 6.
Proof. repeat split; vm_compute; reflexivity. Qed.

(** C5, amended.  Every author's [workload_percent] is a text: when the
    summed score is positive, the author's score divided by the total,
    times 100, printed with one decimal and a percent sign; otherwise
    [0.0%].  The decimal printed for a finite share [m * 2^e] is the
    share in tenths rounded to the nearest integer, so each printed value
    is within 0.05 of the share.  (No bound on the sum of the printed
    values is claimed.) *)
Theorem workload_percent_is_rounded_share (fs : string -> option float)
        (stats : list (gmap string pyval)) :
  Forall2
    (fun s out =>
       out = <["workload_percent" :=
                 PStr (percent_text (summed_score fs stats)
                                    (Cli.workload_score fs s))]>
               (Cli.with_score fs s))
    stats (Cli.contributors_detail fs stats)
  /\ (forall total score,
        (0 <? total)%float = false -> percent_text total score = "0.0%")
  /\ (forall total score,
        (0 <? total)%float = true ->
        percent_text total score
        = Py.format_1f (score / total * 100)%float ++ "%")
  /\ (forall m e,
        e < 0 ->
        2 * Z.abs (Py.tenths m e * 2 ^ (- e) - Z.pos m * 10) <= 2 ^ (- e))
  /\ (forall m e, 0 <= e -> Py.tenths m e = Z.pos m * 10 * 2 ^ e)
  /\ (forall x s m e,
        Prim2SF x = S754_finite s m e ->
        Py.format_1f x
        = Py.sign_prefix s ++ Py.decimal (Py.tenths m e / 10) ++ "."
          ++ Py.decimal (Py.tenths m e mod 10)).
Proof.
  repeat split.
  - unfold Cli.contributors_detail, summed_score.
    generalize (Cli.total_score_of (map (Cli.with_score fs) stats)) as total.
    intros total. induction stats as [|s stats IH]; simpl; constructor.
    + apply with_percent_text.
    + exact IH.
  - intros total score H. unfold percent_text. now rewrite H.
  - intros total score H. unfold percent_text. now rewrite H.
  - intros m e He. unfold Py.tenths.
    destruct (0 <=? e) eqn:E; [apply Z.leb_le in E; lia|].
    apply round_half_even_close. apply Z.pow_pos_nonneg; lia.
  - intros m e He. unfold Py.tenths.
    destruct (0 <=? e) eqn:E; [reflexivity|apply Z.leb_gt in E; lia].
  - intros x s m e H. unfold Py.format_1f. now rewrite H.
Qed.

(** ** Synthetic files through the classifier *)

Lemma startswith_cons (s : string) (a : ascii) (p : string) :
  Py.startswith s (String a p) = true ->
  exists t, s = String a t /\ Py.startswith t p = true.
Proof.
  destruct s as [|b t]; cbn [Py.startswith]; [discriminate|].
  destruct (Ascii.eqb a b) eqn:E; [|discriminate].
  apply Ascii.eqb_eq in E. subst b. intros H. now exists t.
Qed.

Lemma lower_char_idem (c : ascii) :
  Py.lower_char (Py.lower_char c) = Py.lower_char c.
Proof. destruct c as [[] [] [] [] [] [] [] []]; reflexivity. Qed.

Lemma lower_idem (s : string) : Py.lower (Py.lower s) = Py.lower s.
Proof.
  induction s as [|c s IH]; simpl; [reflexivity|].
  now rewrite lower_char_idem, IH.
Qed.

Lemma ext_of_lower (f : string) : Py.lower (ext_of f) = ext_of f.
Proof.
  unfold ext_of.
  destruct (Py.lower (PathLib.suffix (PathLib.Path f))) as [|c s] eqn:E;
    [reflexivity|].
  rewrite <- E. apply lower_idem.
Qed.

Lemma step_blank (ext : string) (st : Z * bool) (raw : string) :
  Reporter.nonempty (Py.strip raw) = false ->
  Reporter.comment_step ext st raw = st.
Proof.
  intros H. destruct st as [k b]. unfold Reporter.comment_step.
  now rewrite H.
Qed.

Lemma step_in_block (ext : string) (k : Z) (raw : string) :
  Reporter.nonempty (Py.strip raw) = true ->
  Reporter.comment_step ext (k, true) raw
  = (k + 1, negb (has_end_token (Py.strip raw))).
Proof.
  intros H. unfold Reporter.comment_step, has_end_token. rewrite H.
  cbn [negb]. now destruct (existsb _ _).
Qed.

(** In a Python file a line that is a bare triple quote is counted and
    opens no block, from any count. *)
Lemma bare_delimiter_opens_no_block (k : Z) (raw : string) :
  Py.strip raw = triple_dq \/ Py.strip raw = triple_sq ->
  Reporter.comment_step ".py" (k, false) raw = (k + 1, false).
Proof.
  intros [H|H]; unfold Reporter.comment_step; rewrite H; reflexivity.
Qed.

(** The end token of the markup family is none of the end tokens of the
    classifier: inside a block, the line [-->] leaves the block open. *)
Lemma markup_end_closes_no_block (ext : string) (k : Z) :
  Reporter.comment_step ext (k, true) "-->" = (k + 1, true).
Proof. now rewrite step_in_block. Qed.

(** C7 (defect).  Three synthetic files in the words of the
    specification, each with one block comment of three lines, on which
    the classifier does not report what the claim asks for.  A Python
    docstring with its delimiters on lines of their own ([N = 0],
    [C = 0], [K = 1]) has 2 comment lines, fewer than [C + 3], and 2
    uncounted lines; so has a C comment that quotes a triple quote on
    its second line.  After a markup comment closed by [-->] the two
    following lines of text are counted as comments: 5 comment lines and
    no code line, where [K = 2]. *)
Theorem three_line_block_comments_miscounted :
  synthetic HashFamily docstring_items 0 0 1 = true
  /\ Reporter.read_lines docstring_world (PathLib.Path "doc.py")
     = render docstring_items
  /\ dict_get "total_lines" (record_of docstring_world "doc.py")
     = Some (PInt 4)
  /\ dict_get "comment_lines" (record_of docstring_world "doc.py")
     = Some (PInt 2)
  /\ kinds ".py" (render docstring_items) = [Comment; Code; Comment; Code]
  /\ uncounted ".py" (render docstring_items) = 2
  /\ synthetic CFamily quoting_items 0 0 1 = true
  /\ Reporter.estimate_comment_lines ".c" (render quoting_items) = 2
  /\ kinds ".c" (render quoting_items) = [Comment; Comment; Code; Code]
  /\ synthetic MarkupFamily markup_items 0 0 2 = true
  /\ Reporter.estimate_comment_lines ".html" (render markup_items) = 5
  /\ kinds ".html" (render markup_items)
     = [Comment; Comment; Comment; Comment; Comment]
  /\ uncounted ".html" (render markup_items) = 0.
Proof. repeat split; vm_compute; reflexivity. Qed.

(** ** Paths: printing and reading back *)

Lemma split_nonempty (s : string) : PathLib.split s <> [].
Proof.
  destruct s as [|c t]; simpl; [discriminate|].
  destruct (Ascii.eqb c PathLib.slash); [discriminate|].
  destruct (PathLib.split t); discriminate.
Qed.

Lemma split_components (s : string) :
  Forall (fun p => no_slash p = true) (PathLib.split s).
Proof.
  induction s as [|c t IH]; simpl.
  - now constructor.
  - destruct (Ascii.eqb c PathLib.slash) eqn:E.
    + now constructor.
    + destruct (PathLib.split t) as [|h r]; constructor.
      * simpl. now rewrite E.
      * constructor.
      * inversion IH; subst. simpl. now rewrite E.
      * now inversion IH.
Qed.

Lemma split_no_slash (p : string) :
  no_slash p = true -> PathLib.split p = [p].
Proof.
  induction p as [|c p IH]; simpl; [reflexivity|].
  intros H. apply andb_prop in H. destruct H as [Hc Hp].
  apply negb_true_iff in Hc. now rewrite Hc, (IH Hp).
Qed.

Lemma split_app (p s : string) :
  no_slash p = true ->
  PathLib.split (p ++ String PathLib.slash s) = p :: PathLib.split s.
Proof.
  induction p as [|c p IH]; simpl.
  - intros _. reflexivity.
  - intros H. apply andb_prop in H. destruct H as [Hc Hp].
    apply negb_true_iff in Hc. now rewrite Hc, (IH Hp).
Qed.

Lemma split_join (p : string) (ps : list string) :
  Forall (fun x => no_slash x = true) (p :: ps) ->
  PathLib.split (Py.join "/" (p :: ps)) = p :: ps.
Proof.
  revert p. induction ps as [|q ps IH]; intros p H.
  - inversion H; subst. now apply split_no_slash.
  - inversion H; subst. unfold Py.join in *.
    change (String.concat "/" (p :: q :: ps))
      with (p ++ String PathLib.slash (String.concat "/" (q :: ps))).
    rewrite split_app by assumption. now rewrite IH.
Qed.

Lemma filter_keep_all (ps : list string) :
  Forall (fun p => part_ok p = true) ps ->
  List.filter PathLib.keep_part ps = ps.
Proof.
  induction 1 as [|p ps Hp _ IH]; simpl; [reflexivity|].
  unfold part_ok in Hp. apply andb_prop in Hp. destruct Hp as [Hk _].
  now rewrite Hk, IH.
Qed.

Lemma splitroot_root_ok (s : string) :
  root_ok (fst (PathLib.splitroot s)) = true.
Proof.
  destruct s as [|c1 [|c2 [|c3 t]]]; simpl; try reflexivity;
    repeat match goal with
           | |- context [Ascii.eqb ?c PathLib.slash] =>
               destruct (Ascii.eqb c PathLib.slash)
           end; reflexivity.
Qed.

Lemma Path_parts_ok (f : string) :
  Forall (fun p => part_ok p = true) (PathLib.parts (PathLib.Path f)).
Proof.
  unfold PathLib.Path. destruct (PathLib.splitroot f) as [r rel].
  cbn [PathLib.parts]. apply List.Forall_forall. intros p Hp.
  apply filter_In in Hp. destruct Hp as [Hin Hk].
  unfold part_ok. rewrite Hk.
  pose proof (split_components rel) as Hall.
  rewrite List.Forall_forall in Hall. now rewrite (Hall p Hin).
Qed.

Lemma Path_root_ok (f : string) :
  root_ok (PathLib.root (PathLib.Path f)) = true.
Proof.
  unfold PathLib.Path. pose proof (splitroot_root_ok f) as H.
  destruct (PathLib.splitroot f) as [r rel]. exact H.
Qed.

(** A first component starts with a character that is not a slash. *)
Lemma part_ok_head (p : string) :
  part_ok p = true ->
  exists c t, p = String c t /\ Ascii.eqb c PathLib.slash = false.
Proof.
  unfold part_ok. destruct p as [|c t]; [discriminate|].
  intros H. apply andb_prop in H. destruct H as [_ H]. simpl in H.
  apply andb_prop in H. destruct H as [H _]. apply negb_true_iff in H.
  now exists c, t.
Qed.

Lemma join_head (c : ascii) (t : string) (ps : list string) :
  exists rest, Py.join "/" (String c t :: ps) = String c rest.
Proof.
  destruct ps as [|q ps]; [now exists t|].
  now exists (t ++ String PathLib.slash (String.concat "/" (q :: ps))).
Qed.

(** Reading back a printed path gives the path. *)
Lemma Path_str (r : string) (ps : list string) :
  root_ok r = true ->
  Forall (fun p => part_ok p = true) ps ->
  PathLib.Path (PathLib.str {| PathLib.root := r; PathLib.parts := ps |})
  = {| PathLib.root := r; PathLib.parts := ps |}.
Proof.
  intros Hr Hps.
  assert (Hroot : r = EmptyString \/ r = "/" \/ r = "//").
  { unfold root_ok in Hr. apply orb_prop in Hr. destruct Hr as [Hr|Hr];
      [apply orb_prop in Hr; destruct Hr as [Hr|Hr]|];
      apply String.eqb_eq in Hr; auto. }
  destruct ps as [|p ps].
  - destruct Hroot as [Hr0|[Hr0|Hr0]]; subst r; reflexivity.
  - assert (Hns : Forall (fun x => no_slash x = true) (p :: ps)).
    { eapply List.Forall_impl; [|exact Hps]. intros x Hx. unfold part_ok in Hx.
      apply andb_prop in Hx. tauto. }
    pose proof (split_join p ps Hns) as Hsplit.
    pose proof (filter_keep_all (p :: ps) Hps) as Hfilter.
    inversion Hps as [|? ? Hp _]; subst.
    destruct (part_ok_head p Hp) as [c [t [Hpeq Hc]]]. subst p.
    destruct (join_head c t ps) as [rest Hj].
    unfold PathLib.Path, PathLib.str. cbn [PathLib.root PathLib.parts].
    destruct Hroot as [Hr0|[Hr0|Hr0]]; subst r; rewrite Hj in *;
      simpl; rewrite ?Hc; cbn [PathLib.splitroot];
      change (String.append EmptyString (String c rest)) with (String c rest);
      now rewrite Hsplit, Hfilter.
Qed.

Lemma Path_str_Path (f : string) :
  PathLib.Path (PathLib.str (PathLib.Path f)) = PathLib.Path f.
Proof.
  pose proof (Path_root_ok f) as Hr. pose proof (Path_parts_ok f) as Hp.
  destruct (PathLib.Path f) as [r ps]. now apply Path_str.
Qed.

(** ** The changed files *)

Lemma supported_not_excluded (e : string) :
  e ∈ Reporter.SUPPORTED_EXTS -> e ∉ Cli.EXCLUDE_EXTS.
Proof.
  intros Hs He.
  assert (Hd : Reporter.SUPPORTED_EXTS ## Cli.EXCLUDE_EXTS).
  { apply (bool_decide_unpack _ (dec := gset_disjoint_dec _ _)).
    vm_compute. exact I. }
  exact (Hd e Hs He).
Qed.

Lemma empty_not_supported : EmptyString ∉ Reporter.SUPPORTED_EXTS.
Proof.
  intros H. apply (bool_decide_pack _) in H. vm_compute in H. exact H.
Qed.

(** C10.  Every path that [list_changed_files] returns has, lowercased,
    a suffix of the allow-list, hence none of the binary and asset
    extensions; [analyze_files] files it under that suffix; and the path
    exists and is a regular file. *)
Theorem changed_files_have_supported_ext (w : world) (base head r : string) :
  In r (Reporter.list_changed_files w base head) ->
  (Py.lower (PathLib.suffix (PathLib.Path r)) ∈ Reporter.SUPPORTED_EXTS)
  /\ (Py.lower (PathLib.suffix (PathLib.Path r)) ∉ Cli.EXCLUDE_EXTS)
  /\ ext_of r = Py.lower (PathLib.suffix (PathLib.Path r))
  /\ exists_ w r = true
  /\ is_file w r = true.
Proof.
  unfold Reporter.list_changed_files.
  destruct (run w (Reporter.diff_command base head)) as [[code out] err].
  cbv zeta. intros Hin. apply in_flat_map in Hin.
  destruct Hin as [f [_ Hr]].
  destruct (bool_decide _ && exists_ w _ && is_file w _)%bool eqn:E;
    [|contradiction].
  destruct Hr as [Hr|[]]. subst r.
  apply andb_prop in E. destruct E as [E Hfile].
  apply andb_prop in E. destruct E as [Hsup Hex].
  apply bool_decide_eq_true in Hsup.
  rewrite Path_str_Path.
  assert (Hext : ext_of (PathLib.str (PathLib.Path f))
                 = Py.lower (PathLib.suffix (PathLib.Path f))).
  { unfold ext_of. rewrite Path_str_Path.
    destruct (Py.lower (PathLib.suffix (PathLib.Path f))) eqn:El;
      [|reflexivity].
    exfalso. now apply empty_not_supported. }
  repeat split; try assumption. now apply supported_not_excluded.
Qed.

Lemma changed_files_have_supported_ext_witness :
  In "src/app.py" (Reporter.list_changed_files demo_world "main" "topic")
  /\ (Py.lower (PathLib.suffix (PathLib.Path "src/app.py"))
      ∈ Reporter.SUPPORTED_EXTS).
Proof.
  assert (H : In "src/app.py"
                 (Reporter.list_changed_files demo_world "main" "topic"))
    by (vm_compute; left; reflexivity).
  split; [exact H|].
  exact (proj1 (changed_files_have_supported_ext demo_world "main" "topic"
                  "src/app.py" H)).
Defined.

(** * Further properties *)

(** ** [strip] and [lower] *)

Lemma is_space_lower_char (c : ascii) :
  Py.is_space (Py.lower_char c) = Py.is_space c.
Proof. destruct c as [[] [] [] [] [] [] [] []]; reflexivity. Qed.

Lemma is_word_lower_char (c : ascii) :
  Re.is_word (Py.lower_char c) = Re.is_word c.
Proof. destruct c as [[] [] [] [] [] [] [] []]; reflexivity. Qed.

Lemma lstrip_head (s : string) :
  Py.lstrip s = EmptyString
  \/ exists c t, Py.lstrip s = String c t /\ Py.is_space c = false.
Proof.
  induction s as [|c t IH]; [now left|]. simpl.
  destruct (Py.is_space c) eqn:E; [exact IH|]. right. now exists c, t.
Qed.

Lemma rstrip_idem (s : string) : Py.rstrip (Py.rstrip s) = Py.rstrip s.
Proof.
  induction s as [|c t IH]; [reflexivity|]. simpl.
  destruct (Py.rstrip t) as [|a r] eqn:E.
  - destruct (Py.is_space c) eqn:Ec; simpl; [reflexivity|]. now rewrite Ec.
  - change (Py.rstrip (String c (String a r)))
      with (match Py.rstrip (String a r) with
            | EmptyString =>
                if Py.is_space c then EmptyString else String c EmptyString
            | String a' r' => String c (String a' r')
            end).
    now rewrite IH.
Qed.

Lemma rstrip_head (c : ascii) (t : string) :
  Py.is_space c = false -> exists t', Py.rstrip (String c t) = String c t'.
Proof.
  intros Hc. simpl. destruct (Py.rstrip t) as [|a r].
  - rewrite Hc. now exists EmptyString.
  - now exists (String a r).
Qed.

Lemma strip_idem (s : string) : Py.strip (Py.strip s) = Py.strip s.
Proof.
  unfold Py.strip. destruct (lstrip_head s) as [H|[c [t [H Hc]]]]; rewrite H.
  - reflexivity.
  - destruct (rstrip_head c t Hc) as [t' Ht]. rewrite Ht.
    cbn [Py.lstrip]. rewrite Hc, <- Ht. apply rstrip_idem.
Qed.

Lemma lstrip_lower (s : string) :
  Py.lstrip (Py.lower s) = Py.lower (Py.lstrip s).
Proof.
  induction s as [|c t IH]; [reflexivity|]. simpl.
  rewrite is_space_lower_char. now destruct (Py.is_space c).
Qed.

Lemma rstrip_lower (s : string) :
  Py.rstrip (Py.lower s) = Py.lower (Py.rstrip s).
Proof.
  induction s as [|c t IH]; [reflexivity|]. simpl. rewrite IH.
  destruct (Py.rstrip t) as [|a r]; simpl; [|reflexivity].
  rewrite is_space_lower_char. now destruct (Py.is_space c).
Qed.

Lemma strip_lower (s : string) :
  Py.strip (Py.lower s) = Py.lower (Py.strip s).
Proof. unfold Py.strip. now rewrite lstrip_lower, rstrip_lower. Qed.

Lemma lower_app (a b : string) :
  Py.lower (a ++ b) = Py.lower a ++ Py.lower b.
Proof. induction a as [|c a IH]; simpl; [reflexivity|]. now rewrite IH. Qed.

Lemma lower_length (s : string) : String.length (Py.lower s) = String.length s.
Proof. induction s as [|c s IH]; simpl; [reflexivity|]. now rewrite IH. Qed.

(** ** More on the comment classifier *)

Lemma comment_step_bounds (ext : string) (k : Z) (b : bool) (raw : string) :
  k <= fst (Reporter.comment_step ext (k, b) raw)
    <= k + (if blank_line raw then 0 else 1).
Proof.
  unfold Reporter.comment_step, blank_line.
  destruct (Reporter.nonempty (Py.strip raw)); cbn [negb fst]; [|lia].
  destruct b; cbn [fst]; [lia|].
  destruct (String.eqb ext ".py").
  - destruct (Py.startswith (Py.strip raw) "#"); cbn [fst]; [lia|].
    destruct (Py.startswith _ triple_sq || Py.startswith _ triple_dq)%bool;
      cbn [fst]; lia.
  - destruct (Py.startswith (Py.strip raw) "//"); cbn [fst]; [lia|].
    destruct (Py.startswith _ "/*" || Py.startswith _ "<!--")%bool;
      cbn [fst]; lia.
Qed.

Lemma blank_count_cons (raw : string) (lines : list string) :
  blank_count (raw :: lines)
  = (if blank_line raw then 1 else 0) + blank_count lines.
Proof.
  unfold blank_count, blank_line. cbn [List.filter].
  destruct (negb (Reporter.nonempty (Py.strip raw))); simpl length; lia.
Qed.

Lemma comment_fold_bounds (ext : string) (lines : list string) :
  forall k b,
    k <= fst (fold_left (Reporter.comment_step ext) lines (k, b))
      <= k + Z.of_nat (length lines) - blank_count lines.
Proof.
  induction lines as [|raw lines IH]; intros k b.
  - unfold blank_count. simpl. lia.
  - cbn [fold_left].
    pose proof (comment_step_bounds ext k b raw) as Hs.
    destruct (Reporter.comment_step ext (k, b) raw) as [k' b'] eqn:E.
    cbn [fst] in Hs. specialize (IH k' b').
    rewrite blank_count_cons. simpl length. rewrite Nat2Z.inj_succ.
    destruct (blank_line raw); lia.
Qed.

(** X1.  The comment count of a file is never negative and never exceeds
    the number of its lines that are not blank. *)
Theorem comment_lines_bounded (ext : string) (lines : list string) :
  0 <= Reporter.estimate_comment_lines ext lines
    <= Z.of_nat (length lines) - blank_count lines
  /\ blank_count lines <= Z.of_nat (length lines).
Proof.
  split.
  - unfold Reporter.estimate_comment_lines.
    pose proof (comment_fold_bounds (Py.lower ext) lines 0 false). lia.
  - unfold blank_count. apply inj_le. apply List.filter_length_le.
Qed.

Lemma comment_step_strip (ext : string) (st : Z * bool) (raw : string) :
  Reporter.comment_step ext st (Py.strip raw) = Reporter.comment_step ext st raw.
Proof. unfold Reporter.comment_step. now rewrite strip_idem. Qed.

Lemma comment_fold_strip (ext : string) (lines : list string) :
  forall st,
    fold_left (Reporter.comment_step ext) (map Py.strip lines) st
    = fold_left (Reporter.comment_step ext) lines st.
Proof.
  induction lines as [|raw lines IH]; intros st; [reflexivity|].
  simpl. now rewrite comment_step_strip, IH.
Qed.

Lemma comment_fold_drop_blank (ext : string) (lines : list string) :
  forall st,
    fold_left (Reporter.comment_step ext)
              (List.filter (fun raw => negb (blank_line raw)) lines) st
    = fold_left (Reporter.comment_step ext) lines st.
Proof.
  induction lines as [|raw lines IH]; intros st; [reflexivity|].
  cbn [List.filter fold_left]. destruct (blank_line raw) eqn:E; cbn [negb].
  - rewrite IH. f_equal. symmetry. apply step_blank.
    unfold blank_line in E. now apply negb_true_iff in E.
  - cbn [fold_left]. apply IH.
Qed.

(** X2.  The comment count does not see blank lines or the whitespace
    around a line: dropping every blank line, or stripping every line,
    leaves it unchanged. *)
Theorem comment_lines_ignore_blank_and_indent (ext : string) (lines : list string) :
  Reporter.estimate_comment_lines ext
    (List.filter (fun raw => negb (blank_line raw)) lines)
  = Reporter.estimate_comment_lines ext lines
  /\ Reporter.estimate_comment_lines ext (map Py.strip lines)
     = Reporter.estimate_comment_lines ext lines.
Proof.
  unfold Reporter.estimate_comment_lines.
  now rewrite comment_fold_drop_blank, comment_fold_strip.
Qed.

(** ** More on the complexity score *)

Lemma padded_strip (raw : string) :
  Reporter.padded (Py.strip raw) = Reporter.padded raw.
Proof. unfold Reporter.padded. now rewrite strip_idem. Qed.

Lemma padded_lower (raw : string) :
  Reporter.padded (Py.lower raw) = Reporter.padded raw.
Proof.
  unfold Reporter.padded. rewrite strip_lower, !lower_app, lower_idem.
  reflexivity.
Qed.

Lemma blank_line_strip (raw : string) :
  blank_line raw = true -> Py.strip raw = EmptyString.
Proof.
  unfold blank_line, Reporter.nonempty. rewrite negb_involutive.
  apply String.eqb_eq.
Qed.

Lemma tokens_present_blank (raw : string) :
  blank_line raw = true -> Reporter.tokens_present (Reporter.padded raw) = 0.
Proof.
  intros H. unfold Reporter.padded. now rewrite (blank_line_strip raw H).
Qed.

Lemma score_fold_map (g : string -> string) (lines : list string) :
  (forall raw, Reporter.padded (g raw) = Reporter.padded raw) ->
  forall n,
    fold_left (fun score raw => score + Reporter.tokens_present (Reporter.padded raw))
              (map g lines) n
    = fold_left (fun score raw => score + Reporter.tokens_present (Reporter.padded raw))
                lines n.
Proof.
  intros Hg. induction lines as [|raw lines IH]; intros n; [reflexivity|].
  simpl. now rewrite Hg, IH.
Qed.

Lemma score_fold_drop_blank (lines : list string) :
  forall n,
    fold_left (fun score raw => score + Reporter.tokens_present (Reporter.padded raw))
              (List.filter (fun raw => negb (blank_line raw)) lines) n
    = fold_left (fun score raw => score + Reporter.tokens_present (Reporter.padded raw))
                lines n.
Proof.
  induction lines as [|raw lines IH]; intros n; [reflexivity|].
  cbn [List.filter fold_left]. destruct (blank_line raw) eqn:E; cbn [negb].
  - rewrite (tokens_present_blank raw E), Z.add_0_r. apply IH.
  - cbn [fold_left]. apply IH.
Qed.

(** X3.  The complexity of a file does not see blank lines, the
    whitespace around a line, or the case of its letters. *)
Theorem complexity_ignores_blank_indent_case (lines : list string) :
  Reporter.estimate_complexity
    (List.filter (fun raw => negb (blank_line raw)) lines)
  = Reporter.estimate_complexity lines
  /\ Reporter.estimate_complexity (map Py.strip lines)
     = Reporter.estimate_complexity lines
  /\ Reporter.estimate_complexity (map Py.lower lines)
     = Reporter.estimate_complexity lines.
Proof.
  unfold Reporter.estimate_complexity, Reporter.complexity_score.
  rewrite score_fold_drop_blank.
  rewrite (score_fold_map Py.strip lines padded_strip).
  rewrite (score_fold_map Py.lower lines padded_lower).
  repeat split.
Qed.

Lemma complexity_score_sum (lines : list string) :
  Reporter.complexity_score lines
  = fold_right
      (fun raw acc => Z.of_nat (length (tokens_on (Reporter.padded raw))) + acc)
      0 lines.
Proof.
  unfold Reporter.complexity_score. rewrite complexity_score_from. lia.
Qed.

Lemma complexity_score_app (a b : list string) :
  Reporter.complexity_score (a ++ b)
  = Reporter.complexity_score a + Reporter.complexity_score b.
Proof.
  rewrite !complexity_score_sum.
  induction a as [|raw a IH]; simpl; [reflexivity|]. rewrite IH. lia.
Qed.

Lemma complexity_score_perm (l1 l2 : list string) :
  Permutation l1 l2 ->
  Reporter.complexity_score l1 = Reporter.complexity_score l2.
Proof.
  rewrite !complexity_score_sum.
  induction 1 as [|x l l' _ IH|x y l|l l' l'' _ IH1 _ IH2]; simpl; lia.
Qed.

(** X4.  The integer complexity score of a file is the sum of the scores
    of any two parts its lines are divided into, whatever the order of
    the lines. *)
Theorem complexity_adds_up_in_any_order (l a b : list string) :
  Permutation l (a ++ b) ->
  Reporter.complexity_score l
  = Reporter.complexity_score a + Reporter.complexity_score b.
Proof.
  intros H. rewrite (complexity_score_perm l (a ++ b) H).
  apply complexity_score_app.
Qed.

Lemma complexity_adds_up_in_any_order_witness :
  Reporter.complexity_score ["if a && b"; "x = 1"; "for i in r"]
  = Reporter.complexity_score ["for i in r"; "if a && b"]
    + Reporter.complexity_score ["x = 1"].
Proof.
  apply (complexity_adds_up_in_any_order
           ["if a && b"; "x = 1"; "for i in r"]
           ["for i in r"; "if a && b"] ["x = 1"]).
  simpl. apply perm_trans with ("if a && b" :: "for i in r" :: ["x = 1"]).
  - apply perm_skip. apply perm_swap.
  - apply perm_swap.
Defined.

(** ** Function counting and letter case *)

Lemma star_match_lower (p : ascii -> bool) (k k' : Re.cont) :
  (forall c, p (Py.lower_char c) = p c) ->
  (forall prev s,
      k' (option_map Py.lower_char prev) (Py.lower s)
      = option_map Py.lower (k prev s)) ->
  forall s prev,
    Re.star_match p k' (option_map Py.lower_char prev) (Py.lower s)
    = option_map Py.lower (Re.star_match p k prev s).
Proof.
  intros Hp Hk. induction s as [|c t IH]; intros prev.
  - apply (Hk prev EmptyString).
  - cbn [Py.lower Re.star_match]. rewrite Hp.
    destruct (p c); [|apply (Hk prev (String c t))].
    specialize (IH (Some c)). cbn [option_map] in IH. rewrite IH.
    destruct (Re.star_match p k (Some c) t); [reflexivity|].
    apply (Hk prev (String c t)).
Qed.

Lemma head_lower (s : string) :
  Re.word_opt (Re.head (Py.lower s)) = Re.word_opt (Re.head s).
Proof. destruct s as [|c t]; [reflexivity|]. simpl. apply is_word_lower_char. Qed.

Lemma word_opt_lower (prev : option ascii) :
  Re.word_opt (option_map Py.lower_char prev) = Re.word_opt prev.
Proof. destruct prev as [c|]; [|reflexivity]. simpl. apply is_word_lower_char. Qed.

Lemma rmatch_lower (r : Re.regex) :
  case_blind r ->
  forall (k k' : Re.cont),
    (forall prev s,
        k' (option_map Py.lower_char prev) (Py.lower s)
        = option_map Py.lower (k prev s)) ->
    forall prev s,
      Re.rmatch r k' (option_map Py.lower_char prev) (Py.lower s)
      = option_map Py.lower (Re.rmatch r k prev s).
Proof.
  induction r as [p| |r1 IH1 r2 IH2|r1 IH1 r2 IH2|p];
    cbn [case_blind]; intros Hr k k' Hk prev s.
  - destruct s as [|c t]; [reflexivity|]. cbn [Py.lower Re.rmatch].
    rewrite Hr. destruct (p c); [|reflexivity]. apply (Hk (Some c) t).
  - cbn [Re.rmatch]. rewrite head_lower, word_opt_lower.
    destruct (xorb _ _); [apply Hk|reflexivity].
  - destruct Hr as [H1 H2]. cbn [Re.rmatch].
    apply (IH1 H1). intros prev' s'. now apply (IH2 H2).
  - destruct Hr as [H1 H2]. cbn [Re.rmatch].
    rewrite (IH1 H1 k k' Hk). destruct (Re.rmatch r1 k prev s); [reflexivity|].
    now apply (IH2 H2).
  - cbn [Re.rmatch]. now apply star_match_lower.
Qed.

Lemma match_here_lower (r : Re.regex) (prev : option ascii) (s : string) :
  case_blind r ->
  Re.match_here r (option_map Py.lower_char prev) (Py.lower s)
  = option_map Py.lower (Re.match_here r prev s).
Proof.
  intros Hr. unfold Re.match_here. now apply rmatch_lower.
Qed.

Lemma count_from_lower (r : Re.regex) :
  case_blind r ->
  forall s skip prev,
    Re.count_from r skip (option_map Py.lower_char prev) (Py.lower s)
    = Re.count_from r skip prev s.
Proof.
  intros Hr. induction s as [|c t IH]; intros skip prev.
  - destruct skip; cbn [Py.lower Re.count_from]; [|reflexivity].
    pose proof (match_here_lower r prev EmptyString Hr) as Hm.
    cbn [Py.lower] in Hm. rewrite Hm.
    now destruct (Re.match_here r prev EmptyString).
  - destruct skip as [|n]; cbn [Py.lower Re.count_from].
    + pose proof (match_here_lower r prev (String c t) Hr) as Hm.
      cbn [Py.lower] in Hm. rewrite Hm.
      destruct (Re.match_here r prev (String c t)) as [rest|]; cbn [option_map].
      * rewrite lower_length. cbn [String.length]. rewrite lower_length.
        f_equal. apply (IH _ (Some c)).
      * apply (IH O (Some c)).
    + apply (IH n (Some c)).
Qed.

Lemma FUNC_PATTERNS_case_blind :
  Forall case_blind Reporter.FUNC_PATTERNS.
Proof.
  assert (Hi : forall c x,
             Ascii.eqb (Py.lower_char (Py.lower_char x)) (Py.lower_char c)
             = Ascii.eqb (Py.lower_char x) (Py.lower_char c))
    by (intros; now rewrite lower_char_idem).
  unfold Reporter.FUNC_PATTERNS.
  repeat constructor; cbn [case_blind Re.istring Re.ichar Re.Plus];
    repeat split; intros;
    first [apply Hi | apply is_space_lower_char | apply is_word_lower_char].
Qed.

Lemma findall_len_lower (r : Re.regex) (text : string) :
  case_blind r -> Re.findall_len r (Py.lower text) = Re.findall_len r text.
Proof.
  intros Hr. unfold Re.findall_len.
  exact (count_from_lower r Hr text O None).
Qed.

(** X5.  Function counting does not see the case of letters: a text and
    its lowercase form hold the same number of declarations. *)
Theorem count_functions_ignores_case (text : string) :
  Reporter.count_functions (Py.lower text) = Reporter.count_functions text.
Proof.
  unfold Reporter.count_functions.
  pose proof FUNC_PATTERNS_case_blind as H.
  generalize 0 as total.
  induction H as [|pat pats Hp _ IH]; intros total; [reflexivity|].
  cbn [fold_left]. rewrite (findall_len_lower pat text Hp). apply IH.
Qed.

(** ** The order of strings *)

Lemma ascii_compare_refl (a : ascii) : Ascii.compare a a = Eq.
Proof. unfold Ascii.compare. apply N.compare_refl. Qed.

Lemma string_compare_refl (s : string) : String.compare s s = Eq.
Proof.
  induction s as [|c s IH]; simpl; [reflexivity|].
  now rewrite ascii_compare_refl.
Qed.

Lemma ascii_compare_lt_trans (a b c : ascii) :
  Ascii.compare a b = Lt -> Ascii.compare b c = Lt -> Ascii.compare a c = Lt.
Proof.
  unfold Ascii.compare. rewrite !N.compare_lt_iff. lia.
Qed.

Lemma string_compare_lt_trans (s1 : string) :
  forall s2 s3,
    String.compare s1 s2 = Lt -> String.compare s2 s3 = Lt ->
    String.compare s1 s3 = Lt.
Proof.
  induction s1 as [|a s1 IH]; intros [|b s2] [|c s3]; simpl;
    try discriminate; try reflexivity.
  destruct (Ascii.compare a b) eqn:Eab; try discriminate;
    destruct (Ascii.compare b c) eqn:Ebc; try discriminate; intros H1 H2.
  - apply Ascii.compare_eq_iff in Eab, Ebc. subst.
    rewrite ascii_compare_refl. now apply (IH s2 s3).
  - apply Ascii.compare_eq_iff in Eab. subst. now rewrite Ebc.
  - apply Ascii.compare_eq_iff in Ebc. subst. now rewrite Eab.
  - now rewrite (ascii_compare_lt_trans a b c Eab Ebc).
Qed.

Lemma string_ltb_leb (s1 s2 : string) :
  String.ltb s1 s2 = negb (String.leb s2 s1).
Proof.
  unfold String.ltb, String.leb. rewrite (String.compare_antisym s1 s2).
  now destruct (String.compare s2 s1).
Qed.

Lemma string_leb_trans (s1 s2 s3 : string) :
  String.leb s1 s2 = true -> String.leb s2 s3 = true ->
  String.leb s1 s3 = true.
Proof.
  unfold String.leb.
  destruct (String.compare s1 s2) eqn:E12; try discriminate;
    destruct (String.compare s2 s3) eqn:E23; try discriminate; intros _ _.
  - apply String.compare_eq_iff in E12. subst. now rewrite E23.
  - apply String.compare_eq_iff in E12. subst. now rewrite E23.
  - apply String.compare_eq_iff in E23. subst. now rewrite E12.
  - now rewrite (string_compare_lt_trans s1 s2 s3 E12 E23).
Qed.

Lemma key_lt_false (k1 k2 : Z * string) :
  Builtins.key_lt k1 k2 = false <->
  fst k2 < fst k1 \/ (fst k1 = fst k2 /\ String.leb (snd k2) (snd k1) = true).
Proof.
  unfold Builtins.key_lt. rewrite string_ltb_leb.
  destruct (Z.eqb_spec (fst k1) (fst k2)) as [He|Hne].
  - rewrite negb_false_iff. split; [intros H; right; auto|].
    intros [H|[_ H]]; [lia|exact H].
  - rewrite Z.ltb_ge. split; [intros H; left; lia|].
    intros [H|[H _]]; [lia|contradiction].
Qed.

Lemma key_lt_asym (k1 k2 : Z * string) :
  Builtins.key_lt k1 k2 = true -> Builtins.key_lt k2 k1 = false.
Proof.
  intros H. apply key_lt_false. unfold Builtins.key_lt in H.
  rewrite string_ltb_leb in H.
  destruct (Z.eqb_spec (fst k1) (fst k2)) as [He|Hne].
  - right. split; [congruence|]. apply negb_true_iff in H.
    destruct (String.leb_total (snd k1) (snd k2)) as [Ht|Ht];
      [exact Ht|congruence].
  - left. now apply Z.ltb_lt in H.
Qed.

Lemma key_lt_false_trans (k1 k2 k3 : Z * string) :
  Builtins.key_lt k1 k2 = false -> Builtins.key_lt k2 k3 = false ->
  Builtins.key_lt k1 k3 = false.
Proof.
  rewrite !key_lt_false.
  intros [H1|[H1 L1]] [H2|[H2 L2]]; try (left; lia).
  right. split; [lia|]. now apply (string_leb_trans _ (snd k2)).
Qed.

(** ** The stable sort *)

Section SortedFacts.

Context {A K : Type}.
Variable key : A -> K.
Variable before : K -> K -> bool.

(** [a] may stand in front of [b]. *)
Let in_order (a b : A) : Prop := before (key b) (key a) = false.

Lemma insert_perm (x : A) (l : list A) :
  Permutation (Builtins.insert key before x l) (x :: l).
Proof.
  induction l as [|y l IH]; simpl; [reflexivity|].
  destruct (before (key y) (key x)); [|reflexivity].
  rewrite IH. apply perm_swap.
Qed.

Lemma sorted_perm (l : list A) :
  Permutation (Builtins.sorted key before l) l.
Proof.
  induction l as [|x l IH]; simpl; [reflexivity|].
  rewrite insert_perm. now apply perm_skip.
Qed.

Lemma sorted_length (l : list A) :
  length (Builtins.sorted key before l) = length l.
Proof. apply Permutation_length, sorted_perm. Qed.

Hypothesis before_asym :
  forall a b, before a b = true -> before b a = false.
Hypothesis before_false_trans :
  forall a b c, before a b = false -> before b c = false -> before a c = false.

Lemma insert_sorted (x : A) (l : list A) :
  StronglySorted in_order l ->
  StronglySorted in_order (Builtins.insert key before x l).
Proof.
  induction 1 as [|y l Hl IH Hy]; simpl.
  - constructor; constructor.
  - destruct (before (key y) (key x)) eqn:E.
    + constructor; [exact IH|].
      apply List.Forall_forall. intros z Hz.
      apply (Permutation_in _ (insert_perm x l)) in Hz.
      destruct Hz as [<-|Hz].
      * unfold in_order. now apply before_asym.
      * rewrite List.Forall_forall in Hy. now apply Hy.
    + constructor; [now constructor|].
      constructor; [exact E|].
      rewrite List.Forall_forall in Hy |- *. intros z Hz.
      unfold in_order. apply (before_false_trans _ (key y)); [|exact E].
      now apply Hy.
Qed.

Lemma sorted_sorted (l : list A) :
  StronglySorted in_order (Builtins.sorted key before l).
Proof.
  induction l as [|x l IH]; simpl; [constructor|]. now apply insert_sorted.
Qed.

End SortedFacts.

(** ** The per-extension table and the files *)

Lemma column_total_setdefault (col : Reporter.ext_agg -> Z) (k : string)
      (d : Reporter.ext_agg) (u : Reporter.ext_agg -> Reporter.ext_agg)
      (delta : Z) (m : Reporter.by_ext_t) :
  (forall a, col (u a) = col a + delta) -> col d = 0 ->
  column_total col (Reporter.setdefault_update k d u m)
  = column_total col m + delta.
Proof.
  intros Hu Hd. induction m as [|[k' a] m IH]; simpl.
  - rewrite Hu, Hd. lia.
  - destruct (String.eqb k k'); simpl; [rewrite Hu|rewrite IH]; lia.
Qed.

Lemma setdefault_Forall (P : string * Reporter.ext_agg -> Prop) (k : string)
      (d : Reporter.ext_agg) (u : Reporter.ext_agg -> Reporter.ext_agg)
      (m : Reporter.by_ext_t) :
  P (k, u d) -> (forall a, P (k, a) -> P (k, u a)) ->
  Forall P m -> Forall P (Reporter.setdefault_update k d u m).
Proof.
  intros Hd Hu. induction 1 as [|[k' a] m Ha Hm IH]; simpl.
  - now repeat constructor.
  - destruct (String.eqb k k') eqn:E.
    + apply String.eqb_eq in E. subst k'. constructor; [now apply Hu|assumption].
    + now constructor.
Qed.

Lemma sum_field_records_snoc (w : world) (k : string) (files : list string)
      (f : string) :
  sum_field k (map (record_of w) (files ++ [f]))
  = sum_field k (map (record_of w) files) + int_field k (record_of w f).
Proof.
  rewrite List.map_app, sum_field_app. unfold sum_field at 2. simpl. lia.
Qed.

(** X6.  The per-extension table accounts for every file exactly once:
    its file counts add up to the number of files, its line, comment and
    function columns add up to the same columns of the per-file records,
    and every entry carries its own key and at least one file. *)
Theorem by_ext_accounts_for_every_file (w : world) (files : list string) :
  column_total Reporter.file_count (fst (Reporter.analyze_files w files))
  = Z.of_nat (length files)
  /\ column_total Reporter.total_lines (fst (Reporter.analyze_files w files))
     = sum_field "total_lines" (snd (Reporter.analyze_files w files))
  /\ column_total Reporter.comment_lines (fst (Reporter.analyze_files w files))
     = sum_field "comment_lines" (snd (Reporter.analyze_files w files))
  /\ column_total Reporter.function_count (fst (Reporter.analyze_files w files))
     = sum_field "function_count" (snd (Reporter.analyze_files w files))
  /\ Forall (fun e => Reporter.agg_ext (snd e) = fst e
                      /\ 1 <= Reporter.file_count (snd e))
            (fst (Reporter.analyze_files w files)).
Proof.
  rewrite analyze_files_fst, analyze_files_snd.
  induction files as [|f files IH] using rev_ind.
  - repeat split. constructor.
  - destruct IH as [Hc [Ht [Hm [Hf Hall]]]].
    rewrite by_ext_from_snoc. cbv zeta. rewrite !sum_field_records_snoc.
    split; [|split; [|split; [|split]]].
    + rewrite (column_total_setdefault _ _ _ _ 1) by reflexivity.
      rewrite Hc, length_app, Nat2Z.inj_add. reflexivity.
    + rewrite (column_total_setdefault _ _ _ _
                 (Reporter.m_total_lines (Reporter.measure w f)))
        by reflexivity.
      now rewrite Ht.
    + rewrite (column_total_setdefault _ _ _ _
                 (Reporter.m_comments (Reporter.measure w f)))
        by reflexivity.
      now rewrite Hm.
    + rewrite (column_total_setdefault _ _ _ _
                 (Reporter.m_func_count (Reporter.measure w f)))
        by reflexivity.
      now rewrite Hf.
    + apply setdefault_Forall; [| |exact Hall].
      * cbn. split; [reflexivity|lia].
      * intros a [Ha Hn]. cbn in *. split; [exact Ha|lia].
Qed.

Lemma lookup_by_ext_from (w : world) (files : list string) (ext : string) :
  Reporter.lookup_ext ext (by_ext_from w [] files)
  = agg_of_records ext (List.filter (has_ext ext) (map (record_of w) files)).
Proof.
  induction files as [|f files IH] using rev_ind; [reflexivity|].
  rewrite by_ext_from_snoc. cbv zeta.
  rewrite lookup_setdefault_update, List.map_app, List.filter_app.
  rewrite measure_ext. simpl map. simpl List.filter.
  rewrite has_ext_record.
  destruct (String.eqb ext (ext_of f)) eqn:E.
  - apply String.eqb_eq in E. subst ext. rewrite String.eqb_refl.
    apply agg_of_records_snoc. exact IH.
  - rewrite String.eqb_sym, E, app_nil_r. exact IH.
Qed.

Lemma filter_perm {A : Type} (p : A -> bool) (l1 l2 : list A) :
  Permutation l1 l2 -> Permutation (List.filter p l1) (List.filter p l2).
Proof.
  induction 1 as [|x l l' _ IH|x y l|l l' l'' _ IH1 _ IH2]; simpl.
  - constructor.
  - destruct (p x); [now apply perm_skip|exact IH].
  - destruct (p x), (p y); try reflexivity. apply perm_swap.
  - now rewrite IH1.
Qed.

Lemma sum_field_perm (k : string) (l1 l2 : list pydict) :
  Permutation l1 l2 -> sum_field k l1 = sum_field k l2.
Proof.
  unfold sum_field.
  induction 1 as [|x l l' _ IH|x y l|l l' l'' _ IH1 _ IH2]; simpl; lia.
Qed.

Lemma agg_of_records_perm (ext : string) (l1 l2 : list pydict) :
  Permutation l1 l2 -> agg_of_records ext l1 = agg_of_records ext l2.
Proof.
  intros H. destruct l1 as [|x l1].
  - apply Permutation_nil in H. now subst.
  - destruct l2 as [|y l2].
    + symmetry in H. apply Permutation_nil in H. discriminate.
    + cbn [agg_of_records]. f_equal.
      apply agg_eq; try reflexivity;
        [f_equal; now apply Permutation_length|now apply sum_field_perm..].
Qed.

Lemma lookup_by_ext_perm (w : world) (files files' : list string) (ext : string) :
  Permutation files files' ->
  Reporter.lookup_ext ext (by_ext_from w [] files)
  = Reporter.lookup_ext ext (by_ext_from w [] files').
Proof.
  intros H. rewrite !lookup_by_ext_from.
  apply agg_of_records_perm, filter_perm. now apply Permutation_map.
Qed.

(** X7.  The entry of an extension does not depend on the order of the
    files: two listings of the same files give every extension the same
    entry, or none in both. *)
Theorem by_ext_entry_order_free (w : world) (files files' : list string)
        (ext : string) :
  Permutation files files' ->
  Reporter.lookup_ext ext (fst (Reporter.analyze_files w files))
  = Reporter.lookup_ext ext (fst (Reporter.analyze_files w files')).
Proof.
  intros H. rewrite !analyze_files_fst. now apply lookup_by_ext_perm.
Qed.

Lemma by_ext_entry_order_free_witness :
  Reporter.lookup_ext ".py"
    (fst (Reporter.analyze_files demo_world ["src/app.py"; "gone.js"; "x.py"]))
  = Reporter.lookup_ext ".py"
      (fst (Reporter.analyze_files demo_world ["gone.js"; "x.py"; "src/app.py"])).
Proof.
  apply (by_ext_entry_order_free demo_world
           ["src/app.py"; "gone.js"; "x.py"] ["gone.js"; "x.py"; "src/app.py"]).
  change ["src/app.py"; "gone.js"; "x.py"]
    with (["src/app.py"] ++ ["gone.js"; "x.py"])%list.
  change ["gone.js"; "x.py"; "src/app.py"]
    with (["gone.js"; "x.py"] ++ ["src/app.py"])%list.
  apply Permutation_app_comm.
Defined.

(** ** The rows of the summary tables *)

Lemma StronglySorted_weaken {A : Type} (R R' : A -> A -> Prop) (l : list A) :
  (forall a b, R a b -> R' a b) -> StronglySorted R l -> StronglySorted R' l.
Proof.
  intros H. induction 1 as [|x l Hl IH Hx]; constructor; [exact IH|].
  eapply List.Forall_impl; [|exact Hx]. intros b. apply H.
Qed.

Lemma ext_key_order (a b : Reporter.ext_agg) :
  Builtins.key_lt (Tables.ext_key b) (Tables.ext_key a) = false ->
  ext_order a b.
Proof.
  intros H. apply key_lt_false in H. unfold ext_order. cbn in H.
  destruct H as [H|[H L]]; [left; lia|right; split; [lia|exact L]].
Qed.

Lemma exts_sorted (l : list Reporter.ext_agg) :
  StronglySorted
    (fun a b => Builtins.key_lt (Tables.ext_key b) (Tables.ext_key a) = false)
    (Builtins.sorted Tables.ext_key Builtins.key_lt l).
Proof.
  apply (sorted_sorted Tables.ext_key Builtins.key_lt key_lt_asym
                       key_lt_false_trans).
Qed.

(** X8.  The summary by extension has one row per extension, in the
    order of decreasing line counts; extensions with equal line counts
    stand in the order of their names. *)
Theorem summary_rows_sorted (by_ext : Reporter.by_ext_t) :
  Permutation (Tables.exts by_ext) (map snd by_ext)
  /\ StronglySorted ext_order (Tables.exts by_ext)
  /\ length (Tables.md_rows by_ext) = length by_ext
  /\ length (Tables.ext_rows by_ext) = length by_ext.
Proof.
  unfold Tables.md_rows, Tables.ext_rows, Tables.exts.
  rewrite !length_map, sorted_length, length_map. repeat split.
  - apply sorted_perm.
  - eapply StronglySorted_weaken; [|apply exts_sorted]. apply ext_key_order.
Qed.

(** Two sorted lists with the same elements are equal when no two
    different elements tie. *)
Lemma sorted_unique {A : Type} (R : A -> A -> Prop) (l1 : list A) :
  forall l2,
    (forall a b, In a l1 -> In b l1 -> R a b -> R b a -> a = b) ->
    StronglySorted R l1 -> StronglySorted R l2 -> Permutation l1 l2 ->
    l1 = l2.
Proof.
  induction l1 as [|x t1 IH]; intros l2 Hanti H1 H2 Hp.
  - apply Permutation_nil in Hp. now subst.
  - destruct l2 as [|y t2];
      [symmetry in Hp; apply Permutation_nil in Hp; discriminate|].
    apply StronglySorted_inv in H1. destruct H1 as [Ht1 Hx].
    apply StronglySorted_inv in H2. destruct H2 as [Ht2 Hy].
    rewrite List.Forall_forall in Hx, Hy.
    assert (Hxy : x = y).
    { assert (Hxin : In x (y :: t2))
        by (apply (Permutation_in _ Hp); now left).
      assert (Hyin : In y (x :: t1))
        by (apply (Permutation_in _ (Permutation_sym Hp)); now left).
      destruct Hxin as [->|Hxin]; [reflexivity|].
      destruct Hyin as [->|Hyin]; [reflexivity|].
      apply Hanti; [now left|now right|now apply Hx|now apply Hy]. }
    subst y. f_equal. apply IH; try assumption.
    + intros a b Ha Hb. apply Hanti; now right.
    + now apply Permutation_cons_inv in Hp.
Qed.

Lemma lookup_ext_In (m : Reporter.by_ext_t) (k : string) (a : Reporter.ext_agg) :
  List.NoDup (map fst m) ->
  (In (k, a) m <-> Reporter.lookup_ext k m = Some a).
Proof.
  induction m as [|[k' a'] m IH]; simpl; intros Hnd.
  - split; [tauto|discriminate].
  - inversion Hnd as [|? ? Hnotin Hnd']; subst.
    destruct (String.eqb k k') eqn:E.
    + apply String.eqb_eq in E. subst k'. split.
      * intros [Heq|Hin]; [congruence|].
        exfalso. apply Hnotin. apply (in_map fst) in Hin. exact Hin.
      * intros Heq. left. congruence.
    + rewrite <- (IH Hnd'). split; [|tauto].
      intros [Heq|Hin]; [|exact Hin].
      injection Heq as -> _. rewrite String.eqb_refl in E. discriminate.
Qed.

Lemma by_ext_perm (w : world) (files files' : list string) :
  Permutation files files' ->
  Permutation (by_ext_from w [] files) (by_ext_from w [] files').
Proof.
  intros H. apply Stdlib.Sorting.Permutation.NoDup_Permutation.
  - apply (List.NoDup_map_inv fst), keys_NoDup.
  - apply (List.NoDup_map_inv fst), keys_NoDup.
  - intros [k a].
    rewrite !lookup_ext_In by apply keys_NoDup.
    now rewrite (lookup_by_ext_perm w files files' k H).
Qed.

Lemma by_ext_entries (w : world) (files : list string) :
  Forall (fun e => Reporter.agg_ext (snd e) = fst e) (by_ext_from w [] files).
Proof.
  induction files as [|f files IH] using rev_ind; [constructor|].
  rewrite by_ext_from_snoc. cbv zeta.
  apply setdefault_Forall; [reflexivity| |exact IH].
  intros a Ha. exact Ha.
Qed.

(** Entries of one table with the same extension are the same entry. *)
Lemma by_ext_same_ext (w : world) (files : list string)
      (a b : Reporter.ext_agg) :
  In a (map snd (by_ext_from w [] files)) ->
  In b (map snd (by_ext_from w [] files)) ->
  Reporter.agg_ext a = Reporter.agg_ext b -> a = b.
Proof.
  intros Ha Hb Heq.
  apply in_map_iff in Ha. destruct Ha as [[ka a'] [Ea Ha]].
  apply in_map_iff in Hb. destruct Hb as [[kb b'] [Eb Hb]].
  cbn in Ea, Eb. subst a' b'.
  pose proof (by_ext_entries w files) as Hall.
  rewrite List.Forall_forall in Hall.
  pose proof (Hall _ Ha) as Hka. pose proof (Hall _ Hb) as Hkb.
  cbn in Hka, Hkb.
  apply lookup_ext_In in Ha, Hb; try apply keys_NoDup.
  assert (ka = kb) by congruence. subst kb. congruence.
Qed.

Lemma exts_order_free (w : world) (files files' : list string) :
  Permutation files files' ->
  Tables.exts (by_ext_from w [] files) = Tables.exts (by_ext_from w [] files').
Proof.
  intros H. unfold Tables.exts.
  apply (sorted_unique
           (fun a b => Builtins.key_lt (Tables.ext_key b) (Tables.ext_key a)
                       = false)).
  - intros a b Ha Hb Hab Hba.
    apply (Permutation_in _ (sorted_perm _ _ _)) in Ha, Hb.
    apply (by_ext_same_ext w files a b Ha Hb).
    apply key_lt_false in Hab, Hba. cbn in Hab, Hba.
    destruct Hab as [Hab|[Hab Lab]], Hba as [Hba|[Hba Lba]]; try lia.
    now apply String.leb_antisym.
  - apply exts_sorted.
  - apply exts_sorted.
  - rewrite !sorted_perm. apply Permutation_map. now apply by_ext_perm.
Qed.

(** X9.  The summary tables do not depend on the order of the files: two
    listings of the same files give the same Markdown rows and the same
    HTML rows, in the same order. *)
Theorem summary_tables_order_free (w : world) (files files' : list string) :
  Permutation files files' ->
  Tables.md_rows (fst (Reporter.analyze_files w files))
  = Tables.md_rows (fst (Reporter.analyze_files w files'))
  /\ Tables.ext_rows (fst (Reporter.analyze_files w files))
     = Tables.ext_rows (fst (Reporter.analyze_files w files')).
Proof.
  intros H. rewrite !analyze_files_fst.
  unfold Tables.md_rows, Tables.ext_rows.
  now rewrite (exts_order_free w files files' H).
Qed.

Lemma summary_tables_order_free_witness :
  Tables.md_rows
    (fst (Reporter.analyze_files demo_world ["src/app.py"; "gone.js"; "x.py"]))
  = Tables.md_rows
      (fst (Reporter.analyze_files demo_world ["gone.js"; "x.py"; "src/app.py"])).
Proof.
  apply (summary_tables_order_free demo_world
           ["src/app.py"; "gone.js"; "x.py"] ["gone.js"; "x.py"; "src/app.py"]).
  change ["src/app.py"; "gone.js"; "x.py"]
    with (["src/app.py"] ++ ["gone.js"; "x.py"])%list.
  change ["gone.js"; "x.py"; "src/app.py"]
    with (["gone.js"; "x.py"] ++ ["src/app.py"])%list.
  apply Permutation_app_comm.
Defined.

(** ** The per-file rows of the HTML table *)

Lemma all_some_map_Some {A : Type} (l : list A) :
  Tables.all_some (map Some l) = Some l.
Proof. induction l as [|x l IH]; simpl; [reflexivity|]. now rewrite IH. Qed.

Lemma as_row_records (w : world) (files : list string) :
  map Tables.as_row (map (record_of w) files) = map Some (map (row_of w) files).
Proof. rewrite !map_map. reflexivity. Qed.

Lemma file_key_order (a b : Tables.file_row) :
  Builtins.key_lt (Tables.file_key b) (Tables.file_key a) = false ->
  file_order a b.
Proof.
  intros H. apply key_lt_false in H. unfold file_order. cbn in H.
  destruct H as [H|[H L]]; [left; lia|right; split; [lia|exact L]].
Qed.

(** X10.  [render_html] finds in every record of [analyze_files] the six
    fields it reads; its per-file rows are the files of the run, each
    once, in the order of decreasing line counts, files with equal line
    counts in the order of their paths. *)
Theorem html_rows_of_analysis (w : world) (files : list string) :
  Tables.all_some (map Tables.as_row (snd (Reporter.analyze_files w files)))
  = Some (map (row_of w) files)
  /\ Tables.html_rows (snd (Reporter.analyze_files w files))
     = Tables.all_some
         (map Tables.html_row (Tables.sorted_files (map (row_of w) files)))
  /\ Permutation (Tables.sorted_files (map (row_of w) files))
                 (map (row_of w) files)
  /\ StronglySorted file_order (Tables.sorted_files (map (row_of w) files)).
Proof.
  unfold Tables.html_rows.
  rewrite analyze_files_snd, as_row_records, all_some_map_Some.
  repeat split.
  - apply sorted_perm.
  - eapply StronglySorted_weaken; [apply file_key_order|].
    apply (sorted_sorted Tables.file_key Builtins.key_lt key_lt_asym
                         key_lt_false_trans).
Qed.

(** ** Escaping *)

Lemma count_char_app (x : ascii) (a b : string) :
  count_char x (a ++ b) = (count_char x a + count_char x b)%nat.
Proof.
  induction a as [|c a IH]; [reflexivity|].
  change (String c a ++ b) with (String c (a ++ b)).
  cbn [count_char]. rewrite IH. lia.
Qed.

Lemma count_replace_other (x c : ascii) (by_ s : string) :
  Ascii.eqb c x = false -> count_char x by_ = O ->
  count_char x (Builtins.replace_char c by_ s) = count_char x s.
Proof.
  intros Hx Hby. induction s as [|a s IH]; [reflexivity|].
  cbn [Builtins.replace_char count_char].
  destruct (Ascii.eqb a c) eqn:E.
  - apply Ascii.eqb_eq in E. subst a.
    rewrite count_char_app, Hby, IH, Hx. reflexivity.
  - cbn [count_char]. now rewrite IH.
Qed.

Lemma count_replace_same (c : ascii) (by_ s : string) :
  count_char c by_ = O ->
  count_char c (Builtins.replace_char c by_ s) = O.
Proof.
  intros Hby. induction s as [|a s IH]; [reflexivity|].
  cbn [Builtins.replace_char].
  destruct (Ascii.eqb a c) eqn:E.
  - now rewrite count_char_app, Hby, IH.
  - cbn [count_char]. now rewrite E, IH.
Qed.

(** An escaped text holds no angle bracket and no quote. *)
Lemma escape_clean (s : string) :
  count_char "<" (Html.escape s) = O
  /\ count_char ">" (Html.escape s) = O
  /\ count_char (ascii_of_N 34) (Html.escape s) = O
  /\ count_char (ascii_of_N 39) (Html.escape s) = O.
Proof.
  unfold Html.escape. cbv zeta. repeat split.
  - rewrite !(count_replace_other "<") by reflexivity.
    now apply count_replace_same.
  - rewrite !(count_replace_other ">") by reflexivity.
    now apply count_replace_same.
  - rewrite (count_replace_other (ascii_of_N 34)) by reflexivity.
    now apply count_replace_same.
  - now apply count_replace_same.
Qed.

Lemma count_char_uint (x : ascii) (d : Decimal.uint) :
  Py.in_range 48 57 x = false ->
  count_char x (DecimalString.NilEmpty.string_of_uint d) = O.
Proof.
  intros Hx. induction d as [|d IH|d IH|d IH|d IH|d IH|d IH|d IH|d IH|d IH|d IH];
    [reflexivity|..]; cbn [DecimalString.NilEmpty.string_of_uint count_char];
    rewrite IH;
    match goal with
    | |- context [Ascii.eqb ?c x] =>
        destruct (Ascii.eqb_spec c x) as [<-|_]; [discriminate Hx|reflexivity]
    end.
Qed.

Lemma count_char_decimal (x : ascii) (n : Z) :
  Py.in_range 48 57 x = false -> count_char x (Py.decimal n) = O.
Proof.
  intros Hx. unfold Py.decimal, DecimalString.NilZero.string_of_uint.
  destruct (N.to_uint (Z.to_N n)) eqn:E; try (rewrite <- E);
    try now apply count_char_uint.
  cbn [count_char].
  destruct (Ascii.eqb_spec "0" x) as [<-|_]; [discriminate Hx|reflexivity].
Qed.

Lemma count_char_str_int (x : ascii) (n : Z) :
  Py.in_range 48 57 x = false -> Ascii.eqb "-" x = false ->
  count_char x (Builtins.str_int n) = O.
Proof.
  intros Hx Hm. unfold Builtins.str_int. destruct (n <? 0).
  - rewrite count_char_app, count_char_decimal by exact Hx.
    cbn [count_char]. now rewrite Hm.
  - now apply count_char_decimal.
Qed.

Lemma count_td_right (x : ascii) (n : Z) :
  Py.in_range 48 57 x = false -> Ascii.eqb "-" x = false ->
  count_char x (Tables.td_right (Builtins.str_int n))
  = (count_char x "<td style='text-align:right'>" + count_char x "</td>")%nat.
Proof.
  intros Hx Hm. unfold Tables.td_right.
  rewrite !count_char_app, count_char_str_int by assumption. lia.
Qed.

(** X11.  Whatever the path and the extension, a per-file row of the HTML
    table holds the fourteen opening and fourteen closing angle brackets
    of its tags and no double quote, and a summary row holds twelve of
    each: the texts are escaped. *)
Theorem html_rows_escape_markup (r : Tables.file_row) (row : string)
        (e : Reporter.ext_agg) :
  Tables.html_row r = Some row ->
  count_char "<" row = 14%nat
  /\ count_char ">" row = 14%nat
  /\ count_char (ascii_of_N 34) row = O
  /\ count_char "<" (Tables.html_ext_row e) = 12%nat
  /\ count_char ">" (Tables.html_ext_row e) = 12%nat
  /\ count_char (ascii_of_N 34) (Tables.html_ext_row e) = O.
Proof.
  unfold Tables.html_row, Tables.html_ext_row.
  destruct (Builtins.int_of_float (Tables.r_complexity r)) as [c|];
    [|discriminate].
  intros H. injection H as <-.
  destruct (escape_clean (Tables.r_file r)) as [F1 [F2 [F3 _]]].
  destruct (escape_clean (Tables.r_ext r)) as [E1 [E2 [E3 _]]].
  destruct (escape_clean (Reporter.agg_ext e)) as [A1 [A2 [A3 _]]].
  repeat split; rewrite !count_char_app, !count_td_right by reflexivity;
    rewrite ?F1, ?F2, ?F3, ?E1, ?E2, ?E3, ?A1, ?A2, ?A3; reflexivity.
Qed.

Lemma html_rows_escape_markup_witness :
  count_char "<"
    ("<tr><td>a&lt;b&gt;.py</td><td>.py</td>"
     ++ "<td style='text-align:right'>3</td><td style='text-align:right'>1</td>"
     ++ "<td style='text-align:right'>1</td><td style='text-align:right'>2</td>"
     ++ "</tr>") = 14%nat.
Proof.
  exact (proj1 (html_rows_escape_markup
                  {| Tables.r_file := "a<b>.py"; Tables.r_ext := ".py";
                     Tables.r_total_lines := 3; Tables.r_comment_lines := 1;
                     Tables.r_function_count := 1;
                     Tables.r_complexity := 2%float |}
                  _ (Reporter.default_agg ".py") eq_refl)).
Defined.

(** ** The option [--top] *)

Lemma StronglySorted_app_inv {A : Type} (R : A -> A -> Prop) (l1 l2 : list A) :
  StronglySorted R (l1 ++ l2) ->
  StronglySorted R l1
  /\ Forall (fun a => Forall (fun b => R a b) l2) l1.
Proof.
  induction l1 as [|x l1 IH]; simpl; intros H.
  - split; constructor.
  - apply StronglySorted_inv in H. destruct H as [H Hx].
    destruct (IH H) as [H1 H2].
    rewrite List.Forall_forall in Hx. split.
    + constructor; [exact H1|]. apply List.Forall_forall. intros b Hb.
      apply Hx. apply in_or_app. now left.
    + constructor; [|exact H2]. apply List.Forall_forall. intros b Hb.
      apply Hx. apply in_or_app. now right.
Qed.

Lemma by_lines_sorted (data : list pydict) :
  StronglySorted
    (fun a b => int_field "total_lines" b <= int_field "total_lines" a)
    (Builtins.sorted (int_field "total_lines") Z.gtb data).
Proof.
  eapply StronglySorted_weaken;
    [|apply (sorted_sorted (int_field "total_lines") Z.gtb)].
  - intros a b H. cbv beta in H. rewrite Z.gtb_ltb in H.
    now apply Z.ltb_ge in H.
  - intros a b. rewrite !Z.gtb_ltb, Z.ltb_lt, Z.ltb_ge. lia.
  - intros a b c. rewrite !Z.gtb_ltb, !Z.ltb_ge. lia.
Qed.

(** X13.  With [--top n], [n] positive, and integer line counts, the
    listing keeps [min n (number of files)] files in the order of
    decreasing line counts, and no file that it drops has more lines than
    a file that it keeps; with [--top 0] or without the option it keeps
    every file. *)
Theorem top_n_keeps_the_largest (n : Z) (data : list pydict) :
  0 < n ->
  Forall lines_are_int data ->
  length (Listing.top_n (Some n) data) = Nat.min (Z.to_nat n) (length data)
  /\ StronglySorted
       (fun a b => int_field "total_lines" b <= int_field "total_lines" a)
       (Listing.top_n (Some n) data)
  /\ (exists dropped,
         Permutation data (Listing.top_n (Some n) data ++ dropped)
         /\ Forall
              (fun kept =>
                 Forall (fun d => int_field "total_lines" d
                                  <= int_field "total_lines" kept) dropped)
              (Listing.top_n (Some n) data))
  /\ Listing.top_n (Some 0) data = data
  /\ Listing.top_n None data = data.
Proof.
  intros Hn _. unfold Listing.top_n, Builtins.slice_to.
  destruct (Z.eqb_spec n 0) as [->|_]; [lia|].
  destruct (Z.leb_spec 0 n) as [_|]; [|lia].
  pose proof (by_lines_sorted data) as Hs.
  rewrite <- (firstn_skipn (Z.to_nat n)
                (Builtins.sorted (int_field "total_lines") Z.gtb data)) in Hs.
  apply StronglySorted_app_inv in Hs. destruct Hs as [Hs1 Hs2].
  repeat split.
  - now rewrite length_firstn, sorted_length.
  - exact Hs1.
  - exists (skipn (Z.to_nat n)
              (Builtins.sorted (int_field "total_lines") Z.gtb data)).
    split; [|exact Hs2].
    rewrite firstn_skipn. symmetry. apply sorted_perm.
Qed.

Lemma top_n_keeps_the_largest_witness :
  length (Listing.top_n (Some 2)
            [ [("path", PStr "a"); ("total_lines", PInt 5)];
              [("path", PStr "b"); ("total_lines", PInt 9)];
              [("path", PStr "c")] ])
  = 2%nat.
Proof.
  refine (proj1 (top_n_keeps_the_largest 2
                   [ [("path", PStr "a"); ("total_lines", PInt 5)];
                     [("path", PStr "b"); ("total_lines", PInt 9)];
                     [("path", PStr "c")] ]
                   eq_refl _)).
  repeat constructor.
Defined.

(** ** The run of [main] *)

Lemma listed_ext_supported (w : world) (base head r : string) :
  In r (Reporter.list_changed_files w base head) ->
  ext_of r ∈ Reporter.SUPPORTED_EXTS.
Proof.
  unfold Reporter.list_changed_files.
  destruct (run w (Reporter.diff_command base head)) as [[code out] err].
  cbv zeta. intros Hin. apply in_flat_map in Hin.
  destruct Hin as [f [_ Hr]].
  destruct (bool_decide _ && exists_ w _ && is_file w _)%bool eqn:E;
    [|contradiction].
  destruct Hr as [Hr|[]]. subst r.
  apply andb_prop in E. destruct E as [E _].
  apply andb_prop in E. destruct E as [Hsup _].
  apply bool_decide_eq_true in Hsup.
  unfold ext_of. rewrite Path_str_Path.
  destruct (Py.lower (PathLib.suffix (PathLib.Path f))) eqn:El;
    [|exact Hsup].
  exfalso. now apply empty_not_supported.
Qed.

Lemma by_ext_keys_from_files (w : world) (files : list string) (k : string) :
  In k (map fst (by_ext_from w [] files)) ->
  exists f, In f files /\ ext_of f = k.
Proof.
  induction files as [|f files IH] using rev_ind; [intros []|].
  rewrite by_ext_from_snoc. cbv zeta. rewrite keys_setdefault_update.
  rewrite measure_ext. intros Hin.
  assert (Hcases : In k (map fst (by_ext_from w [] files)) \/ k = ext_of f).
  { destruct (Reporter.lookup_ext _ _); [now left|].
    apply in_app_or in Hin. destruct Hin as [Hin|[Hin|[]]]; auto. }
  destruct Hcases as [Hin' | ->].
  - destruct (IH Hin') as [g [Hg Hk]]. exists g. split; [|exact Hk].
    apply in_or_app. now left.
  - exists f. split; [|reflexivity]. apply in_or_app. right. now left.
Qed.

(** X14.  In a run of [main], every per-file record and every row of the
    per-extension table carries an extension of the allow-list (never the
    placeholder for a missing suffix), and the per-file records are the
    changed files, one each and in the order of the listing. *)
Theorem main_reports_supported_extensions
        (getenv : string -> option string) (w : world) :
  Forall (fun pf => exists e, dict_get "ext" pf = Some (PStr e)
                              /\ e ∈ Reporter.SUPPORTED_EXTS)
         (snd (Main.analysis getenv w))
  /\ Forall (fun row => fst row ∈ Reporter.SUPPORTED_EXTS
                        /\ fst row <> "<none>")
            (fst (Main.analysis getenv w))
  /\ map (dict_get "file") (snd (Main.analysis getenv w))
     = map (fun f => Some (PStr f)) (Main.files getenv w).
Proof.
  unfold Main.analysis, Main.files.
  destruct (Main.range getenv w) as [base head].
  rewrite analyze_files_fst, analyze_files_snd. repeat split.
  - apply List.Forall_forall. intros pf Hpf.
    apply in_map_iff in Hpf. destruct Hpf as [f [<- Hf]].
    exists (ext_of f). split; [reflexivity|].
    now apply (listed_ext_supported w base head).
  - apply List.Forall_forall. intros [k a] Hin.
    apply (in_map fst) in Hin. cbn [fst] in *.
    destruct (by_ext_keys_from_files w _ k Hin) as [f [Hf <-]].
    pose proof (listed_ext_supported w base head f Hf) as Hs.
    split; [exact Hs|]. intros Heq. rewrite Heq in Hs.
    apply (bool_decide_pack _) in Hs. vm_compute in Hs. exact Hs.
  - rewrite map_map. reflexivity.
Qed.

(** ** The complexity heatmap *)

Lemma SFltb_rank (f1 f2 : spec_float) :
  f1 <> S754_nan -> f2 <> S754_nan ->
  (SFltb f1 f2 = true <-> rank_lt (rank f1) (rank f2)).
Proof.
  intros H1 H2. unfold SFltb.
  destruct f1 as [s1|s1| |s1 m1 e1]; [| |congruence|];
    (destruct f2 as [s2|s2| |s2 m2 e2]; [| |congruence|]);
    try destruct s1; try destruct s2; cbn -[Z.compare Z.opp];
    try (split; [discriminate|lia]); try (split; [reflexivity|lia]);
    try (split; [intros _; lia|reflexivity]).
  - destruct (Z.compare_spec e1 e2) as [->|L|L].
    + change (PosDef.Pos.compare_cont Eq m1 m2) with (Pos.compare m1 m2).
      destruct (Pos.compare_spec m1 m2) as [->|M|M]; cbn [CompOpp];
        (split; [try discriminate; intros _|try reflexivity]); lia.
    + split; [discriminate|lia].
    + split; [intros _; lia|reflexivity].
  - destruct (Z.compare_spec e1 e2) as [->|L|L].
    + change (PosDef.Pos.compare_cont Eq m1 m2) with (Pos.compare m1 m2).
      destruct (Pos.compare_spec m1 m2) as [->|M|M];
        (split; [try discriminate; intros _|try reflexivity]); lia.
    + split; [intros _; lia|reflexivity].
    + split; [discriminate|lia].
Qed.

Lemma SFeqb_rank (f1 f2 : spec_float) :
  f1 <> S754_nan -> f2 <> S754_nan ->
  (SFeqb f1 f2 = true <-> rank f1 = rank f2).
Proof.
  intros H1 H2. unfold SFeqb.
  destruct f1 as [s1|s1| |s1 m1 e1]; [| |congruence|];
    (destruct f2 as [s2|s2| |s2 m2 e2]; [| |congruence|]);
    try destruct s1; try destruct s2; cbn -[Z.compare Z.opp];
    try (split; [discriminate|intros E; inversion E; lia]);
    try (split; reflexivity).
  - destruct (Z.compare_spec e1 e2) as [->|L|L].
    + change (PosDef.Pos.compare_cont Eq m1 m2) with (Pos.compare m1 m2).
      destruct (Pos.compare_spec m1 m2) as [->|M|M]; cbn [CompOpp];
        (split; [try discriminate; reflexivity
                |try reflexivity; intros E; inversion E; lia]).
    + split; [discriminate|intros E; inversion E; lia].
    + split; [discriminate|intros E; inversion E; lia].
  - destruct (Z.compare_spec e1 e2) as [->|L|L].
    + change (PosDef.Pos.compare_cont Eq m1 m2) with (Pos.compare m1 m2).
      destruct (Pos.compare_spec m1 m2) as [->|M|M];
        (split; [try discriminate; reflexivity
                |try reflexivity; intros E; inversion E; lia]).
    + split; [discriminate|intros E; inversion E; lia].
    + split; [discriminate|intros E; inversion E; lia].
Qed.

Lemma not_nan_spec (x : float) : not_nan x <-> Prim2SF x <> S754_nan.
Proof.
  unfold not_nan. rewrite FloatAxioms.eqb_spec. split.
  - intros H E. rewrite E in H. discriminate.
  - intros H. now apply SFeqb_rank.
Qed.

Lemma rank_opp (f : spec_float) :
  rank (SFopp f)
  = (- fst (fst (rank f)), - snd (fst (rank f)), - snd (rank f)).
Proof.
  destruct f as [[]|[]| |[] m e]; cbn -[Z.opp]; try reflexivity.
  now rewrite !Z.opp_involutive.
Qed.

Lemma not_nan_opp (x : float) : not_nan x -> not_nan (- x)%float.
Proof.
  rewrite !not_nan_spec, FloatAxioms.opp_spec. now destruct (Prim2SF x) as [[]|[]| |[] m e].
Qed.

Lemma ltb_rank (x y : float) :
  not_nan x -> not_nan y ->
  ((x <? y)%float = true <-> rank_lt (rank (Prim2SF x)) (rank (Prim2SF y))).
Proof.
  rewrite !not_nan_spec, FloatAxioms.ltb_spec. apply SFltb_rank.
Qed.

Lemma eqb_rank (x y : float) :
  not_nan x -> not_nan y ->
  ((x =? y)%float = true <-> rank (Prim2SF x) = rank (Prim2SF y)).
Proof.
  rewrite !not_nan_spec, FloatAxioms.eqb_spec. apply SFeqb_rank.
Qed.

Lemma triple_eq (a1 a2 a3 b1 b2 b3 : Z) :
  (a1, a2, a3) = (b1, b2, b3) <-> a1 = b1 /\ a2 = b2 /\ a3 = b3.
Proof.
  split; [intros E; inversion E; auto|intros [-> [-> ->]]; reflexivity].
Qed.

(** The comparison of two keys of a float and an integer, read on the
    ranks. *)
Lemma fkey_lt_rank (k1 k2 : float * Z) :
  not_nan (fst k1) -> not_nan (fst k2) ->
  (Builtins.fkey_lt k1 k2 = true
   <-> rank_lt (rank (Prim2SF (fst k1))) (rank (Prim2SF (fst k2)))
       \/ (rank (Prim2SF (fst k1)) = rank (Prim2SF (fst k2))
           /\ snd k1 < snd k2)).
Proof.
  intros H1 H2. unfold Builtins.fkey_lt.
  pose proof (eqb_rank _ _ H1 H2) as He.
  pose proof (ltb_rank _ _ H1 H2) as Hl.
  destruct (fst k1 =? fst k2)%float.
  - assert (E : rank (Prim2SF (fst k1)) = rank (Prim2SF (fst k2)))
      by now apply He.
    rewrite Z.ltb_lt, E. split; [now right|].
    intros [L|[_ L]]; [|exact L].
    destruct (rank (Prim2SF (fst k2))) as [[a b] c]. cbn in L. lia.
  - rewrite Hl. split; [now left|]. intros [L|[E _]]; [exact L|].
    apply He in E. discriminate.
Qed.

Lemma fkey_lt_asym (k1 k2 : float * Z) :
  not_nan (fst k1) -> not_nan (fst k2) ->
  Builtins.fkey_lt k1 k2 = true -> Builtins.fkey_lt k2 k1 = false.
Proof.
  intros H1 H2 H. apply (fkey_lt_rank _ _ H1 H2) in H.
  apply not_true_is_false. intros H'. apply (fkey_lt_rank _ _ H2 H1) in H'.
  destruct (rank (Prim2SF (fst k1))) as [[a1 a2] a3].
  destruct (rank (Prim2SF (fst k2))) as [[b1 b2] b3].
  unfold rank_lt in *. rewrite triple_eq in *. lia.
Qed.

Lemma fkey_lt_false_trans (k1 k2 k3 : float * Z) :
  not_nan (fst k1) -> not_nan (fst k2) -> not_nan (fst k3) ->
  Builtins.fkey_lt k1 k2 = false -> Builtins.fkey_lt k2 k3 = false ->
  Builtins.fkey_lt k1 k3 = false.
Proof.
  intros H1 H2 H3 Ha Hb.
  apply not_true_iff_false in Ha, Hb. apply not_true_is_false.
  rewrite (fkey_lt_rank _ _ H1 H2) in Ha.
  rewrite (fkey_lt_rank _ _ H2 H3) in Hb.
  rewrite (fkey_lt_rank _ _ H1 H3).
  destruct (rank (Prim2SF (fst k1))) as [[a1 a2] a3].
  destruct (rank (Prim2SF (fst k2))) as [[b1 b2] b3].
  destruct (rank (Prim2SF (fst k3))) as [[c1 c2] c3].
  unfold rank_lt in *. rewrite !triple_eq in *. lia.
Qed.

Lemma complexity_key_order (a b : Tables.file_row) :
  not_nan (Tables.r_complexity a) -> not_nan (Tables.r_complexity b) ->
  Builtins.fkey_lt (Tables.complexity_key b) (Tables.complexity_key a) = false ->
  complexity_order a b.
Proof.
  intros Ha Hb H. apply not_true_iff_false in H.
  rewrite (fkey_lt_rank (Tables.complexity_key b) (Tables.complexity_key a)
             (not_nan_opp _ Hb) (not_nan_opp _ Ha)) in H.
  unfold complexity_order.
  rewrite (ltb_rank _ _ Hb Ha), (eqb_rank _ _ Ha Hb).
  cbn [Tables.complexity_key fst snd] in H.
  rewrite !FloatAxioms.opp_spec, !rank_opp in H.
  destruct (rank (Prim2SF (Tables.r_complexity a))) as [[a1 a2] a3].
  destruct (rank (Prim2SF (Tables.r_complexity b))) as [[b1 b2] b3].
  cbn [fst snd] in H.
  unfold rank_lt in *. rewrite !triple_eq in *. lia.
Qed.

Section SortedOn.

Context {A K : Type}.
Variable key : A -> K.
Variable before : K -> K -> bool.
Variable D : A -> Prop.

Let in_order_on (a b : A) : Prop := before (key b) (key a) = false.

Hypothesis asym_on :
  forall a b, D a -> D b ->
              before (key a) (key b) = true -> before (key b) (key a) = false.
Hypothesis false_trans_on :
  forall a b c, D a -> D b -> D c ->
                before (key a) (key b) = false ->
                before (key b) (key c) = false ->
                before (key a) (key c) = false.

Lemma insert_sorted_on (x : A) (l : list A) :
  D x -> Forall D l ->
  StronglySorted in_order_on l ->
  StronglySorted in_order_on (Builtins.insert key before x l).
Proof.
  intros Hx Hl Hs. induction Hs as [|y l Hs IH Hy]; simpl.
  - constructor; constructor.
  - apply List.Forall_cons_iff in Hl. destruct Hl as [Dy Dl].
    destruct (before (key y) (key x)) eqn:E.
    + constructor; [exact (IH Dl)|].
      apply List.Forall_forall. intros z Hz.
      apply (Permutation_in _ (insert_perm key before x l)) in Hz.
      destruct Hz as [<-|Hz].
      * unfold in_order_on. now apply asym_on.
      * rewrite List.Forall_forall in Hy. now apply Hy.
    + constructor; [now constructor|].
      constructor; [exact E|].
      rewrite List.Forall_forall in Hy, Dl |- *. intros z Hz.
      unfold in_order_on. apply (false_trans_on z y x); auto.
      now apply Hy.
Qed.

Lemma sorted_sorted_on (l : list A) :
  Forall D l -> StronglySorted in_order_on (Builtins.sorted key before l).
Proof.
  induction l as [|x l IH]; simpl; [constructor|]. intros Hl.
  apply List.Forall_cons_iff in Hl. destruct Hl as [Dx Dl].
  apply insert_sorted_on; [exact Dx| |now apply IH].
  apply List.Forall_forall. intros z Hz.
  apply (Permutation_in _ (sorted_perm key before l)) in Hz.
  rewrite List.Forall_forall in Dl. now apply Dl.
Qed.

End SortedOn.

Lemma StronglySorted_weaken_on {A : Type} (D : A -> Prop)
      (R R' : A -> A -> Prop) (l : list A) :
  (forall a b, D a -> D b -> R a b -> R' a b) ->
  Forall D l -> StronglySorted R l -> StronglySorted R' l.
Proof.
  intros H Hl Hs. induction Hs as [|x l Hs IH Hx]; [constructor|].
  apply List.Forall_cons_iff in Hl. destruct Hl as [Dx Dl].
  constructor; [exact (IH Dl)|].
  rewrite List.Forall_forall in Hx, Dl |- *. intros b Hb.
  apply H; auto.
Qed.

Lemma by_complexity_sorted (rows : list Tables.file_row) :
  Forall (fun r => not_nan (Tables.r_complexity r)) rows ->
  StronglySorted complexity_order
    (Builtins.sorted Tables.complexity_key Builtins.fkey_lt rows).
Proof.
  intros Hrows.
  assert (Hs : Forall (fun r => not_nan (Tables.r_complexity r))
                 (Builtins.sorted Tables.complexity_key Builtins.fkey_lt rows)).
  { apply List.Forall_forall. intros z Hz.
    apply (Permutation_in _ (sorted_perm _ _ rows)) in Hz.
    rewrite List.Forall_forall in Hrows. now apply Hrows. }
  eapply (StronglySorted_weaken_on _ _ _ _ complexity_key_order Hs).
  apply (sorted_sorted_on Tables.complexity_key Builtins.fkey_lt
           (fun r => not_nan (Tables.r_complexity r))); [| |exact Hrows].
  - intros a b Ha Hb. apply fkey_lt_asym; now apply not_nan_opp.
  - intros a b c Ha Hb Hc. apply fkey_lt_false_trans; now apply not_nan_opp.
Qed.

(** X12.  When no complexity is a NaN, the heatmap of [render_markdown]
    lists [min 10 (number of files)] of the files, the more complex ones
    first and, among equally complex ones, the longer first; every file
    it leaves out is at most as complex as each file it lists. *)
Theorem heatmap_lists_the_most_complex (rows : list Tables.file_row) :
  Forall (fun r => not_nan (Tables.r_complexity r)) rows ->
  length (Tables.top_complex rows) = Nat.min 10 (length rows)
  /\ StronglySorted complexity_order (Tables.top_complex rows)
  /\ exists rest,
       Permutation rows (Tables.top_complex rows ++ rest)
       /\ Forall (fun kept => Forall (complexity_order kept) rest)
                 (Tables.top_complex rows).
Proof.
  intros Hrows. unfold Tables.top_complex, Builtins.slice_to.
  change (0 <=? 10) with true. cbv iota.
  pose proof (by_complexity_sorted rows Hrows) as Hs.
  rewrite <- (firstn_skipn (Z.to_nat 10)
                (Builtins.sorted Tables.complexity_key Builtins.fkey_lt rows))
    in Hs.
  apply StronglySorted_app_inv in Hs. destruct Hs as [Hs1 Hs2].
  split; [|split].
  - now rewrite length_firstn, sorted_length.
  - exact Hs1.
  - exists (skipn (Z.to_nat 10)
              (Builtins.sorted Tables.complexity_key Builtins.fkey_lt rows)).
    split; [|exact Hs2].
    rewrite firstn_skipn. symmetry. apply sorted_perm.
Qed.

Lemma heatmap_lists_the_most_complex_witness :
  length (Tables.top_complex
            (map (row_of demo_world) ["src/app.py"; "gone.js"; "x.py"]))
  = 3%nat.
Proof.
  refine (proj1 (heatmap_lists_the_most_complex
                   (map (row_of demo_world) ["src/app.py"; "gone.js"; "x.py"])
                   _)).
  repeat constructor; vm_compute; reflexivity.
Defined.

(** ** The option [--only-lang] *)

Lemma split_comma_nonempty (s : string) : Listing.split_comma s <> [].
Proof.
  destruct s as [|c t]; simpl; [discriminate|].
  destruct (Ascii.eqb c ","); [discriminate|].
  destruct (Listing.split_comma t); discriminate.
Qed.

Lemma split_comma_app (a b : string) :
  Listing.split_comma (a ++ "," ++ b)
  = (Listing.split_comma a ++ Listing.split_comma b)%list.
Proof.
  induction a as [|c t IH]; [reflexivity|].
  change (String c t ++ "," ++ b) with (String c (t ++ "," ++ b)).
  cbn [Listing.split_comma]. rewrite IH.
  destruct (Ascii.eqb c ","); [reflexivity|].
  pose proof (split_comma_nonempty t) as Hne.
  destruct (Listing.split_comma t) as [|h r]; [contradiction|reflexivity].
Qed.

Lemma only_exts_app (a b : string) :
  Listing.only_exts (a ++ "," ++ b)
  = (Listing.only_exts a ++ Listing.only_exts b)%list.
Proof.
  unfold Listing.only_exts.
  now rewrite split_comma_app, List.filter_app, List.map_app.
Qed.

Lemma all_chars_impl (p q : ascii -> bool) (s : string) :
  (forall c, p c = true -> q c = true) ->
  all_chars p s = true -> all_chars q s = true.
Proof.
  intros H. induction s as [|c t IH]; [reflexivity|]. simpl.
  intros E. apply andb_prop in E. destruct E as [Ec Et].
  now rewrite (H c Ec), (IH Et).
Qed.

Lemma split_comma_one (s : string) :
  all_chars not_comma s = true -> Listing.split_comma s = [s].
Proof.
  induction s as [|c t IH]; [reflexivity|]. simpl. intros E.
  apply andb_prop in E. destruct E as [Ec Et]. rewrite (IH Et).
  unfold not_comma in Ec. now destruct (Ascii.eqb c ",").
Qed.

Lemma rstrip_plain (s : string) :
  all_chars plain_char s = true -> Py.rstrip s = s.
Proof.
  induction s as [|c t IH]; [reflexivity|]. simpl. intros E.
  apply andb_prop in E. destruct E as [Ec Et]. rewrite (IH Et).
  unfold plain_char in Ec. apply andb_prop in Ec. destruct Ec as [_ Ec].
  destruct t; [|reflexivity]. now destruct (Py.is_space c).
Qed.

Lemma strip_plain (s : string) :
  all_chars plain_char s = true -> Py.strip s = s.
Proof.
  intros E. unfold Py.strip.
  assert (L : Py.lstrip s = s).
  { destruct s as [|c t]; [reflexivity|]. simpl in *.
    apply andb_prop in E. destruct E as [Ec _].
    unfold plain_char in Ec. apply andb_prop in Ec. destruct Ec as [_ Ec].
    now destruct (Py.is_space c). }
  rewrite L. now apply rstrip_plain.
Qed.

Lemma rstrip_space (s : string) : Py.rstrip (s ++ " ") = Py.rstrip s.
Proof.
  induction s as [|c t IH]; [reflexivity|].
  change (String c t ++ " ") with (String c (t ++ " ")).
  cbn [Py.rstrip]. now rewrite IH.
Qed.

Lemma all_chars_app (p : ascii -> bool) (a b : string) :
  all_chars p (a ++ b) = (all_chars p a && all_chars p b)%bool.
Proof.
  induction a as [|c t IH]; [reflexivity|].
  change (String c t ++ b) with (String c (t ++ b)).
  cbn [all_chars]. now rewrite IH, andb_assoc.
Qed.

(** What [only_exts] makes of one entry without a comma. *)
Lemma only_exts_one (s : string) :
  all_chars not_comma s = true ->
  Reporter.nonempty (Py.strip s) = true ->
  Listing.only_exts s = ["." ++ Listing.lstrip_dots (Py.strip s)].
Proof.
  intros Hc Hn. unfold Listing.only_exts. rewrite (split_comma_one s Hc).
  cbn [List.filter]. now rewrite Hn.
Qed.

Lemma bare_facts (e : string) :
  bare e = true ->
  all_chars plain_char e = true
  /\ Reporter.nonempty e = true
  /\ Listing.lstrip_dots e = e.
Proof.
  destruct e as [|c t]; [discriminate|]. unfold bare. intros E.
  apply andb_prop in E. destruct E as [Ed Ep].
  repeat split; [exact Ep|]. cbn [Listing.lstrip_dots].
  now destruct (Ascii.eqb c ".").
Qed.

Lemma plain_not_comma (s : string) :
  all_chars plain_char s = true -> all_chars not_comma s = true.
Proof.
  apply all_chars_impl. intros c H. unfold plain_char in H.
  now apply andb_prop in H.
Qed.

Lemma only_exts_bare (e : string) :
  bare e = true -> Listing.only_exts e = ["." ++ e].
Proof.
  intros H. destruct (bare_facts e H) as [Hp [Hn Hd]].
  rewrite only_exts_one; rewrite ?(strip_plain e Hp); auto.
  - now rewrite Hd.
  - now apply plain_not_comma.
Qed.

Lemma only_exts_dotted (e : string) :
  bare e = true -> Listing.only_exts ("." ++ e) = ["." ++ e].
Proof.
  intros H. destruct (bare_facts e H) as [Hp [Hn Hd]].
  assert (Hp' : all_chars plain_char ("." ++ e) = true).
  { rewrite all_chars_app, Hp. reflexivity. }
  rewrite only_exts_one; rewrite ?(strip_plain _ Hp'); auto.
  - change (Listing.lstrip_dots ("." ++ e)) with (Listing.lstrip_dots e).
    now rewrite Hd.
  - now apply plain_not_comma.
Qed.

Lemma only_exts_spaced (e : string) :
  bare e = true -> Listing.only_exts (" " ++ e ++ " ") = ["." ++ e].
Proof.
  intros H. destruct (bare_facts e H) as [Hp [Hn Hd]].
  assert (Hs : Py.strip (" " ++ e ++ " ") = e).
  { unfold Py.strip. change (Py.lstrip (" " ++ e ++ " "))
      with (Py.lstrip (e ++ " ")).
    assert (L : Py.lstrip (e ++ " ") = e ++ " ").
    { destruct e as [|c t]; [discriminate|].
      change (String c t ++ " ") with (String c (t ++ " ")).
      cbn [Py.lstrip]. cbn [all_chars] in Hp.
      apply andb_prop in Hp. destruct Hp as [Hc _].
      unfold plain_char in Hc. apply andb_prop in Hc. destruct Hc as [_ Hc].
      now destruct (Py.is_space c). }
    rewrite L, rstrip_space. now apply rstrip_plain. }
  rewrite only_exts_one; rewrite ?Hs; auto.
  - now rewrite Hd.
  - rewrite !all_chars_app, (plain_not_comma e Hp). reflexivity.
Qed.

(** X15.  For a bare extension name [e], the option [--only-lang] reads
    [e], [.e] and [e] between spaces as the one extension [.e]; in a
    comma-separated list the entries are read one by one and empty
    entries are dropped; so [--only-lang .e] and [--only-lang e] keep the
    same files. *)
Theorem only_lang_dot_is_optional (e rest : string) (data : list pydict) :
  bare e = true ->
  Listing.only_exts e = ["." ++ e]
  /\ Listing.only_exts ("." ++ e) = ["." ++ e]
  /\ Listing.only_exts (" " ++ e ++ " ") = ["." ++ e]
  /\ Listing.only_exts (e ++ "," ++ rest) = ("." ++ e) :: Listing.only_exts rest
  /\ Listing.only_exts ("," ++ rest) = Listing.only_exts rest
  /\ Listing.only_lang (Some ("." ++ e)) data = Listing.only_lang (Some e) data.
Proof.
  intros H.
  refine (conj (only_exts_bare e H)
            (conj (only_exts_dotted e H)
               (conj (only_exts_spaced e H)
                  (conj _ (conj (only_exts_app EmptyString rest) _))))).
  - now rewrite only_exts_app, only_exts_bare.
  - destruct e as [|c t]; [discriminate|].
    change (Listing.only_lang (Some ("." ++ String c t)) data)
      with (Listing.keep_exts (Listing.only_exts ("." ++ String c t)) data).
    change (Listing.only_lang (Some (String c t)) data)
      with (Listing.keep_exts (Listing.only_exts (String c t)) data).
    now rewrite only_exts_dotted, only_exts_bare.
Qed.

Lemma only_lang_dot_is_optional_witness :
  Listing.only_exts "py,js" = [".py"; ".js"].
Proof.
  exact (proj1 (proj2 (proj2 (proj2
           (only_lang_dot_is_optional "py" "js" [] eq_refl))))).
Defined.
